(** * E-commerce backend: order totals, product routes and seeding

    A shallow embedding of [src/main.py] and [src/schemas.py].

    - [Py]       the part of the Python runtime the handlers rely on:
                 exceptions, the int/float numeric tower on IEEE-754
                 binary64, [round(x, n)] and the builtin [sum].
    - [Schemas]  the pydantic models of [schemas.py] and their validation.
    - [Database] the document store behind [database.py].
    - [Main]     the route handlers of [main.py].

    Floats are the binary64 numbers of the standard library's [SpecFloat]
    (round to nearest, ties to even), so every handler can be evaluated. *)

From Stdlib Require Import ZArith List Ascii String Floats.SpecFloat.
From stdpp Require Import gmap strings list.
Import ListNotations.
Open Scope Z_scope.

(* ===================================================================== *)
(** ** The Python runtime                                                 *)
(* ===================================================================== *)

Module Py.

(** *** Exceptions *)

Inductive exn :=
| HTTPException (status_code : Z) (detail : string)
| RequestValidationError
| OverflowError (msg : string)
| Exception (msg : string).

Inductive result (A : Type) :=
| Ok (a : A)
| Raise (e : exn).
Arguments Ok {A} a.
Arguments Raise {A} e.

Definition bind {A B} (r : result A) (k : A -> result B) : result B :=
  match r with
  | Ok a => k a
  | Raise e => Raise e
  end.

#[export] Instance result_bind : MBind result := fun A B k r => bind r k.
#[export] Instance result_ret : MRet result := fun A a => Ok a.
#[export] Instance result_fmap : FMap result :=
  fun A B f r => bind r (fun a => Ok (f a)).

(** FastAPI's answer to an exception that leaves a handler: an
    [HTTPException] carries its own status, a body that fails validation
    is a 422, anything else is an internal server error. *)
Definition status_of (e : exn) : Z :=
  match e with
  | HTTPException s _ => s
  | RequestValidationError => 422
  | OverflowError _ => 500
  | Exception _ => 500
  end.

(** *** binary64 *)

Definition prec : Z := 53.
Definition emax : Z := 1024.

Abbreviation float := spec_float.

Definition fadd : float -> float -> float := SFadd prec emax.
Definition fsub : float -> float -> float := SFsub prec emax.
Definition fmul : float -> float -> float := SFmul prec emax.
Definition fabs : float -> float := SFabs.
(** [x >= y] on C doubles: false as soon as one side is a NaN. *)
Definition fge (x y : float) : bool := SFleb y x.
Definition flt (x y : float) : bool := SFltb x y.
Definition feq (x y : float) : bool := SFeqb x y.

Definition isfinite (x : float) : bool :=
  match x with
  | S754_zero _ | S754_finite _ _ _ => true
  | S754_infinity _ | S754_nan => false
  end.

Definition is_zero (x : float) : bool :=
  match x with S754_zero _ => true | _ => false end.

(** The double nearest to [n / d] (ties to even), with sign [s]: what a
    correctly rounded [strtod] returns for a decimal string, and what the
    Python reader returns for a float literal. *)
Definition strtod (s : bool) (n : Z) (d : positive) : float :=
  match n with
  | Zpos p =>
      let '(q, e, l) := SFdiv_core_binary prec emax (Zpos p) 0 (Zpos d) 0 in
      binary_round_aux prec emax s q e l
  | _ => S754_zero s
  end.

(** A decimal literal [n / 10^k], as in [19.99 = dec 1999 2]. *)
Definition dec (n : Z) (k : positive) : float :=
  strtod (n <? 0) (Z.abs n) (10 ^ k)%positive.

Definition fzero : float := S754_zero false.

(** [PyLong_AsDouble]: the nearest double, or [OverflowError]. *)
Definition PyLong_AsDouble (z : Z) : result float :=
  match binary_normalize prec emax z 0 false with
  | S754_infinity _ => Raise (OverflowError "int too large to convert to float")
  | f => Ok f
  end.

(** *** Numbers: [int] and [float] *)

Inductive num :=
| NInt (z : Z)
| NFloat (f : float).

Definition to_double (a : num) : result float :=
  match a with
  | NInt z => PyLong_AsDouble z
  | NFloat f => Ok f
  end.

(** [float.__mul__(x, b)] and [float.__add__(x, b)]: an int operand is
    first taken to a double. *)
Definition float_mul (x : float) (b : num) : result float :=
  y ← to_double b; Ok (fmul x y).

Definition float_add (x : float) (b : num) : result float :=
  y ← to_double b; Ok (fadd x y).

(** [a * b] and [a + b]: two ints are combined exactly; an int on the
    left of a float defers to the float ([__rmul__], [__radd__]), which
    converts it. *)
Definition py_mul (a b : num) : result num :=
  match a, b with
  | NInt x, NInt y => Ok (NInt (x * y))
  | NInt x, NFloat y => x' ← PyLong_AsDouble x; Ok (NFloat (fmul x' y))
  | NFloat x, _ => NFloat <$> float_mul x b
  end.

Definition py_add (a b : num) : result num :=
  match a, b with
  | NInt x, NInt y => Ok (NInt (x + y))
  | NInt x, NFloat y => x' ← PyLong_AsDouble x; Ok (NFloat (fadd x' y))
  | NFloat x, _ => NFloat <$> float_add x b
  end.

(** *** [round(x, ndigits)] *)

(** Nearest integer to [a / b], ties to even ([a >= 0]). *)
Definition div_half_even (a : Z) (b : positive) : Z :=
  let q := a / Zpos b in
  let r := a mod Zpos b in
  match 2 * r ?= Zpos b with
  | Lt => q
  | Gt => q + 1
  | Eq => if Z.even q then q else q + 1
  end.

(** [|x| * 10^ndigits] rounded to an integer, for a finite [x] of
    mantissa [m] and exponent [e]: the digits [_Py_dg_dtoa] produces in
    mode 3. *)
Definition scaled_digits (m : positive) (e : Z) (ndigits : Z) : Z :=
  let num10 := if 0 <=? ndigits then 10 ^ ndigits else 1 in
  let den10 := if 0 <=? ndigits then 1 else 10 ^ (- ndigits) in
  let num2 := if 0 <=? e then 2 ^ e else 1 in
  let den2 := if 0 <=? e then 1 else 2 ^ (- e) in
  div_half_even (Zpos m * num2 * num10) (Z.to_pos (den2 * den10)).

(** [double_round] of [floatobject.c]: print [x] with [ndigits] decimals,
    correctly rounded, and read the string back. *)
Definition double_round (x : float) (ndigits : Z) : result float :=
  match x with
  | S754_finite s m e =>
      let n := scaled_digits m e ndigits in
      let rounded :=
        if 0 <=? ndigits
        then strtod s n (Z.to_pos (10 ^ ndigits))
        else strtod s (n * 10 ^ (- ndigits)) 1 in
      match rounded with
      | S754_infinity _ => Raise (OverflowError "rounded value too large to represent")
      | r => Ok r
      end
  | _ => Ok x
  end.

Definition NDIGITS_MAX : Z := 323.
Definition NDIGITS_MIN : Z := -308.

(** [float.__round__] with an [ndigits] argument. *)
Definition float_round (x : float) (ndigits : Z) : result float :=
  if negb (isfinite x) then Ok x
  else if NDIGITS_MAX <? ndigits then Ok x
  else if ndigits <? NDIGITS_MIN then Ok (fmul fzero x)
  else double_round x ndigits.

(** [int.__round__] with an [ndigits] argument: an int is returned, and
    it is the int itself when [ndigits >= 0]. *)
Definition long_round (z : Z) (ndigits : Z) : Z :=
  if 0 <=? ndigits then z
  else
    let p := 10 ^ (- ndigits) in
    let r := z mod p in
    let lo := z - r in
    match 2 * r ?= p with
    | Lt => lo
    | Gt => lo + p
    | Eq => if Z.even (lo / p) then lo else lo + p
    end.

Definition py_round (a : num) (ndigits : Z) : result num :=
  match a with
  | NInt z => Ok (NInt (long_round z ndigits))
  | NFloat f => NFloat <$> float_round f ndigits
  end.

(** *** [sum] over floats *)

(** The builtin [sum] starts from the int [0].  With no item it returns
    that int.  The first float item is added with [0 + x]; the remaining
    ones go through the float loop of [builtin_sum_impl], which is a
    plain running sum up to Python 3.11 and Neumaier's compensated sum
    from Python 3.12 on. *)
Inductive sum_loop := Plain | Compensated.

Fixpoint sum_plain (f : float) (xs : list float) : float :=
  match xs with
  | [] => f
  | x :: xs' => sum_plain (fadd f x) xs'
  end.

Fixpoint sum_neumaier (f c : float) (xs : list float) : float :=
  match xs with
  | [] => if negb (is_zero c) && isfinite c then fadd f c else f
  | x :: xs' =>
      let t := fadd f x in
      let c' :=
        if fge (fabs f) (fabs x)
        then fadd c (fadd (fsub f t) x)
        else fadd c (fadd (fsub x t) f) in
      sum_neumaier t c' xs'
  end.

Definition float_loop (v : sum_loop) (f : float) (xs : list float) : float :=
  match v with
  | Plain => sum_plain f xs
  | Compensated => sum_neumaier f fzero xs
  end.

Definition py_sum (v : sum_loop) (xs : list float) : num :=
  match xs with
  | [] => NInt 0
  | x :: xs' => NFloat (float_loop v (fadd fzero x) xs')
  end.

End Py.

(* ===================================================================== *)
(** ** Values, documents and the pydantic models                          *)
(* ===================================================================== *)

(** What a Python [dict] of this program holds: JSON-like values. *)
#[warnings="-register-all"]
Inductive value :=
| VNone
| VBool (b : bool)
| VInt (z : Z)
| VFloat (f : Py.float)
| VStr (s : string)
| VList (l : list value)
| VDict (d : gmap string value).

Abbreviation dict := (gmap string value).

Definition of_num (a : Py.num) : value :=
  match a with
  | Py.NInt z => VInt z
  | Py.NFloat f => VFloat f
  end.

Definition of_optional_str (o : option string) : value :=
  match o with
  | Some s => VStr s
  | None => VNone
  end.

(** [d.update(e)]: the entries of [e] win. *)
Definition update (d e : dict) : dict := e ∪ d.

Module Schemas.
Import Py.

Record OrderItem := {
  product_id : string;
  title : string;
  price : float;        (* Field(..., ge=0) *)
  quantity : Z;         (* Field(..., ge=1) *)
}.

Record ShippingInfo := {
  name : string;
  email : string;       (* EmailStr *)
  address : string;
  city : string;
  country : string;
  postal_code : string;
}.

Record Order := {
  items : list OrderItem;
  shipping : ShippingInfo;
  subtotal : float;     (* Field(..., ge=0) *)
  tax : float;          (* Field(..., ge=0) *)
  total : float;        (* Field(..., ge=0) *)
  status : string;      (* Field("pending") *)
}.

(** A request body before validation: every field may be absent.  A
    field that is present already has the Python type of its annotation
    (pydantic's coercions and the syntax check of [EmailStr] are not
    modelled); the [Field] constraints are checked below. *)
Record OrderItemBody := {
  in_product_id : option string;
  in_title : option string;
  in_price : option float;
  in_quantity : option Z;
}.

Record OrderBody := {
  in_items : option (list OrderItemBody);
  in_shipping : option ShippingInfo;
  in_subtotal : option float;
  in_tax : option float;
  in_total : option float;
  in_status : option string;
}.

(** [Field(...)]: the field is required. *)
Definition required {A} (o : option A) : result A :=
  match o with
  | Some a => Ok a
  | None => Raise RequestValidationError
  end.

(** [Field(..., ge=b)] on a float: required, and [x >= b] must hold. *)
Definition required_ge (b : float) (o : option float) : result float :=
  x ← required o;
  if fge x b then Ok x else Raise RequestValidationError.

Definition required_ge_int (b : Z) (o : option Z) : result Z :=
  x ← required o;
  if b <=? x then Ok x else Raise RequestValidationError.

Definition validate_item (b : OrderItemBody) : result OrderItem :=
  pid ← required (in_product_id b);
  t ← required (in_title b);
  p ← required_ge fzero (in_price b);
  q ← required_ge_int 1 (in_quantity b);
  Ok {| product_id := pid; title := t; price := p; quantity := q |}.

(** [List[OrderItem]]: every element must validate; no length bound. *)
Fixpoint validate_items (bs : list OrderItemBody) : result (list OrderItem) :=
  match bs with
  | [] => Ok []
  | b :: bs' =>
      i ← validate_item b;
      is' ← validate_items bs';
      Ok (i :: is')
  end.

Definition validate_order (b : OrderBody) : result Order :=
  ibs ← required (in_items b);
  its ← validate_items ibs;
  sh ← required (in_shipping b);
  st ← required_ge fzero (in_subtotal b);
  tx ← required_ge fzero (in_tax b);
  tt ← required_ge fzero (in_total b);
  Ok {| items := its; shipping := sh; subtotal := st; tax := tx;
        total := tt; status := default "pending" (in_status b) |}.

(** [model_dump()] *)
Definition dump_item (i : OrderItem) : value :=
  VDict (<["product_id" := VStr (product_id i)]>
        (<["title" := VStr (title i)]>
        (<["price" := VFloat (price i)]>
        (<["quantity" := VInt (quantity i)]> ∅)))).

Definition dump_shipping (s : ShippingInfo) : value :=
  VDict (<["name" := VStr (name s)]>
        (<["email" := VStr (email s)]>
        (<["address" := VStr (address s)]>
        (<["city" := VStr (city s)]>
        (<["country" := VStr (country s)]>
        (<["postal_code" := VStr (postal_code s)]> ∅)))))).

Definition model_dump (o : Order) : dict :=
  <["items" := VList (map dump_item (items o))]>
 (<["shipping" := dump_shipping (shipping o)]>
 (<["subtotal" := VFloat (subtotal o)]>
 (<["tax" := VFloat (tax o)]>
 (<["total" := VFloat (total o)]>
 (<["status" := VStr (status o)]> ∅))))).

End Schemas.

(* ===================================================================== *)
(** ** The document store                                                 *)
(* ===================================================================== *)

Module Database.
Import Py.

(** A [bson.ObjectId]: 12 bytes, read here as a number below [2^96]. *)
Definition ObjectId_t := N.

Definition hex_digits : string := "0123456789abcdef".

Definition hex_digit (n : N) : ascii :=
  default "f"%char (String.get (N.to_nat n) hex_digits).

Definition hex_value (c : ascii) : option N :=
  let n := N_of_ascii c in
  if (48 <=? n)%N && (n <=? 57)%N then Some (n - 48)%N
  else if (97 <=? n)%N && (n <=? 102)%N then Some (n - 87)%N
  else if (65 <=? n)%N && (n <=? 70)%N then Some (n - 55)%N
  else None.

Fixpoint hex_of (digits : nat) (n : N) (acc : string) : string :=
  match digits with
  | O => acc
  | S k => hex_of k (n / 16)%N (String (hex_digit (n mod 16)%N) acc)
  end.

(** [str(oid)]: 24 lower-case hexadecimal digits. *)
Definition str_oid (o : ObjectId_t) : string := hex_of 24 o "".

Fixpoint parse_hex (s : string) (acc : N) : option N :=
  match s with
  | EmptyString => Some acc
  | String c s' =>
      match hex_value c with
      | Some d => parse_hex s' (16 * acc + d)%N
      | None => None
      end
  end.

(** [ObjectId(s)] for a [str]: 24 hexadecimal digits, or [InvalidId]
    ([None] here). *)
Definition ObjectId (s : string) : option ObjectId_t :=
  if (String.length s =? 24)%nat then parse_hex s 0%N else None.

(** A stored document: a dict whose ["_id"] entry, which only the store
    writes and which holds an [ObjectId] and not a JSON-like value, is
    kept in a field of its own. *)
Record document := {
  _id : option ObjectId_t;
  fields : dict;
}.

Record Database := {
  collections : gmap string (list document);
  next_oid : N;
}.

(** [db[name]]: a collection that was never written is empty. *)
Definition collection (d : Database) (name : string) : list document :=
  default [] (collections d !! name).

(** Equality of a filter value and a stored value, on scalars. *)
Definition value_eqb (q v : value) : bool :=
  match q, v with
  | VNone, VNone => true
  | VBool a, VBool b => Bool.eqb a b
  | VInt a, VInt b => a =? b
  | VFloat a, VFloat b => feq a b
  | VStr a, VStr b => String.eqb a b
  | _, _ => false
  end.

(** A document matches an equality filter when it has every key of the
    filter, with an equal value. *)
Definition matches (filt : dict) (doc : document) : bool :=
  forallb (fun kq : string * value =>
             match fields doc !! kq.1 with
             | Some v => value_eqb kq.2 v
             | None => false
             end)
          (map_to_list filt).

(** [collection.count_documents({})] *)
Definition count_documents (c : list document) : Z :=
  Z.of_nat (length c).

(** [collection.find_one({"_id": oid})]: the first document with that
    identifier, or [None]. *)
Definition find_one (c : list document) (oid : ObjectId_t) : option document :=
  find (fun doc => bool_decide (_id doc = Some oid)) c.

(** The module global [db]: [None] when the database is not configured.
    A handler is a function of the state of [db] that returns a value
    or raises, together with the state it leaves. *)
Definition world := option Database.
Definition M (A : Type) : Type := world -> result A * world.

Definition ret {A} (a : A) : M A := fun w => (Ok a, w).
Definition raise {A} (e : exn) : M A := fun w => (Raise e, w).
Definition lift {A} (r : result A) : M A := fun w => (r, w).
Definition get_db : M (option Database) := fun w => (Ok w, w).

#[export] Instance M_bind : MBind M := fun A B k m w =>
  match m w with
  | (Ok a, w') => k a w'
  | (Raise e, w') => (Raise e, w')
  end.

Definition unavailable : exn := Exception "Database not available".

(** The store after [data] has been inserted into collection [name]
    under the next identifier. *)
Definition inserted (d : Database) (name : string) (data : dict) : Database :=
  {| collections :=
       <[name := collection d name ++ [{| _id := Some (next_oid d); fields := data |}]]>
         (collections d);
     next_oid := ((next_oid d + 1) mod 2 ^ 96)%N |}.

(** Modelled from the spec: [create_document] of [database.py], which is
    not among the sources.  It inserts a document into a named
    collection and returns its generated identifier (spec 4.2);
    identifiers are store-generated (spec 6), here from a counter; an
    unavailable database is a configuration error, status 500 (spec 7). *)
Definition create_document (name : string) (data : dict) : M string :=
  fun w =>
    match w with
    | None => (Raise unavailable, w)
    | Some d => (Ok (str_oid (next_oid d)), Some (inserted d name data))
    end.

(** Modelled from the spec: [get_documents] of [database.py], which is
    not among the sources.  It queries a named collection with an
    equality filter and returns the matching documents as an ordered
    sequence (spec 4.2); an unavailable database is a configuration
    error, status 500 (spec 7). *)
Definition get_documents (name : string) (filt : dict) : M (list document) :=
  fun w =>
    match w with
    | None => (Raise unavailable, w)
    | Some d => (Ok (List.filter (matches filt) (collection d name)), w)
    end.

End Database.

(* ===================================================================== *)
(** ** The route handlers of main.py                                      *)
(* ===================================================================== *)

Module Main.
Import Py Schemas Database.

(** [GET /] *)
Definition read_root : dict := {[ "message" := VStr "E-commerce API running" ]}.

(** [d = dict(doc); if "_id" in d: d["id"] = str(d.pop("_id"))] *)
Definition serialize_doc (doc : document) : dict :=
  match _id doc with
  | Some o => <["id" := VStr (str_oid o)]> (fields doc)
  | None => fields doc
  end.

Definition sample (title description : string) (price : float)
    (category image : string) : dict :=
  <["title" := VStr title]>
 (<["description" := VStr description]>
 (<["price" := VFloat price]>
 (<["category" := VStr category]>
 (<["image" := VStr image]>
 (<["in_stock" := VBool true]> ∅))))).

Definition samples : list dict :=
  [ sample "Classic Tee" "Soft cotton tee" (dec 1999 2) "Apparel"
      "https://images.unsplash.com/photo-1521572163474-6864f9cf17ab";
    sample "Ceramic Mug" "Matte finish, 350ml" (dec 125 1) "Home"
      "https://images.unsplash.com/photo-1503602642458-232111445657";
    sample "Leather Journal" "A5 dotted pages" (dec 240 1) "Stationery"
      "https://images.unsplash.com/photo-1519682337058-a94d519337bc";
    sample "Desk Lamp" "Warm LED with dimmer" (dec 390 1) "Home"
      "https://images.unsplash.com/photo-1509228627152-72ae9ae6848d" ].

(** [for s in xs: f(s)] *)
Fixpoint for_each {A B} (xs : list A) (f : A -> M B) : M unit :=
  match xs with
  | [] => ret tt
  | x :: xs' => _ ← f x; for_each xs' f
  end.

(** [POST /seed] *)
Definition seed_products : M dict :=
  db ← get_db;
  match db with
  | None => raise (HTTPException 500 "Database not configured")
  | Some d =>
      let count := count_documents (collection d "product") in
      if 0 <? count then
        ret (<["message" := VStr "Products already exist"]>
            (<["count" := VInt count]> ∅))
      else
        _ ← for_each samples (create_document "product");
        ret (<["message" := VStr "Seeded"]>
            (<["count" := VInt (Z.of_nat (length samples))]> ∅))
  end.

(** Truth value of an [Optional[str]]: [None] and [""] are false. *)
Definition truthy (category : option string) : bool :=
  match category with
  | None => false
  | Some c => negb (String.eqb c "")
  end.

(** [GET /products] *)
Definition list_products (category : option string) : M (list dict) :=
  let filt : dict :=
    if truthy category then <["category" := of_optional_str category]> ∅ else ∅ in
  docs ← get_documents "product" filt;
  ret (map serialize_doc docs).

(** [GET /products/{product_id}].  Whatever [ObjectId(product_id)]
    raises is turned into a 400.  A document that was found has an
    identifier, so it is a non-empty dict and [not doc] is false. *)
Definition get_product (product_id : string) : M dict :=
  db ← get_db;
  match db with
  | None => raise (HTTPException 500 "Database not configured")
  | Some d =>
      match ObjectId product_id with
      | None => raise (HTTPException 400 "Invalid product id")
      | Some oid =>
          match find_one (collection d "product") oid with
          | None => raise (HTTPException 404 "Product not found")
          | Some doc => ret (serialize_doc doc)
          end
      end
  end.

(** The values of the generator [item.price * item.quantity for item in
    order.items], in order; the first product that raises ends it. *)
Fixpoint amounts (its : list OrderItem) : result (list float) :=
  match its with
  | [] => Ok []
  | item :: its' =>
      a ← float_mul (price item) (NInt (quantity item));
      rest ← amounts its';
      Ok (a :: rest)
  end.

(** [POST /orders], after the body has been validated.  [v] is the float
    loop of the interpreter's [sum].  The result is the dict the handler
    returns; rendering it as JSON is left to FastAPI. *)
Definition create_order (v : sum_loop) (order : Order) : M dict :=
  subtotal ← lift (py_sum v <$> amounts (items order));
  tax ← lift (t ← py_mul subtotal (NFloat (dec 1 1)); py_round t 2);
  total ← lift (s ← py_add subtotal tax; py_round s 2);
  let data := model_dump order in
  stored_subtotal ← lift (py_round subtotal 2);
  let data :=
    update data (<["subtotal" := of_num stored_subtotal]>
                (<["tax" := of_num tax]>
                (<["total" := of_num total]>
                (<["status" := VStr "pending"]> ∅)))) in
  oid ← create_document "order" data;
  returned_subtotal ← lift (py_round subtotal 2);
  ret (<["id" := VStr oid]>
      (<["subtotal" := of_num returned_subtotal]>
      (<["tax" := of_num tax]>
      (<["total" := of_num total]>
      (<["status" := VStr "pending"]> ∅))))).

(** [POST /orders] as FastAPI runs it: the body is validated against
    [Order] first, and the handler is only called on a valid one. *)
Definition post_orders (v : sum_loop) (body : OrderBody) : M dict :=
  order ← lift (validate_order body);
  create_order v order.

End Main.

(* ===================================================================== *)
(** ** The specification's vocabulary                                     *)
(* ===================================================================== *)

Module Spec.
Import Py Schemas Database Main.

Definition tax_rate : num := NFloat (dec 1 1).

(** [round(x, 2)] *)
Definition round2 (x : num) : result num := py_round x 2.

(** Spec 4.1: the sum of price x quantity over all items, unrounded. *)
Definition unrounded_subtotal (v : sum_loop) (its : list OrderItem) : result num :=
  xs ← amounts its; Ok (py_sum v xs).

(** Spec 4.1, the order total calculator: tax and total are derived from
    the unrounded subtotal, which is itself rounded last, for output and
    storage.  The result is (subtotal, tax, total). *)
Definition order_totals (v : sum_loop) (its : list OrderItem)
    : result (num * num * num) :=
  s ← unrounded_subtotal v its;
  tax ← (t ← py_mul s tax_rate; round2 t);
  total ← (u ← py_add s tax; round2 u);
  sub ← round2 s;
  Ok (sub, tax, total).

(** Spec 8, first property, as worded: the subtotal is the rounded sum,
    and tax and total are derived from that rounded subtotal. *)
Definition derived_from_rounded (sub tax total : num) : Prop :=
  (t ← py_mul sub tax_rate; round2 t) = Ok tax ∧
  (u ← py_add sub tax; round2 u) = Ok total.

(** The four entries the handler computes itself. *)
Definition computed (sub tax total : num) : dict :=
  <["subtotal" := of_num sub]>
 (<["tax" := of_num tax]>
 (<["total" := of_num total]>
 (<["status" := VStr "pending"]> ∅))).

Definition computed_entries (d : dict) : list (option value) :=
  [d !! "subtotal"; d !! "tax"; d !! "total"; d !! "status"].

(** The documents of a collection, [None] without a database. *)
Definition stored (w : world) (name : string) : option (list document) :=
  (fun d => collection d name) <$> w.

Definition failure_status {A} (r : result A) : option Z :=
  match r with
  | Ok _ => None
  | Raise e => Some (status_of e)
  end.

Definition has_category (c : string) (doc : document) : bool :=
  match fields doc !! "category" with
  | Some (VStr c') => String.eqb c c'
  | _ => false
  end.

(** [x < 0] on floats. *)
Definition negative (x : float) : bool := flt x fzero.

(** A well-formed binary64: the mantissa of a finite number has at most
    53 bits, exactly 53 unless the exponent is the least one, and the
    exponent is in range.  Every Python float is one. *)
Definition valid (x : float) : bool := valid_binary prec emax x.

(** A number the float arithmetic can take in: a well-formed double, or
    an int below [2^1023] in absolute value. *)
Definition num_ok (a : num) : Prop :=
  match a with
  | NInt z => Z.abs z < 2 ^ 1023
  | NFloat f => valid f = true
  end.

(** An order item whose price is a well-formed double and whose quantity
    converts to a double. *)
Definition item_ok (i : OrderItem) : Prop :=
  valid (price i) = true /\ Z.abs (quantity i) < 2 ^ 1023.

(** One term of the sum: the price times the quantity taken to a double. *)
Definition line_amount (i : OrderItem) (x : float) : Prop :=
  exists q, PyLong_AsDouble (quantity i) = Ok q /\ x = fmul (price i) q.

(** The four computed entries of a response or of a stored document. *)
Definition entries_of (sub tax total : num) : list (option value) :=
  [Some (of_num sub); Some (of_num tax); Some (of_num total);
   Some (VStr "pending")].

(** The outcome [res] of [POST /orders] on the store [d] is a response
    with the computed entries [es], and one new document, with the same
    computed entries, at the end of the ["order"] collection. *)
Definition returned_and_stored (res : result dict * world) (d : Database)
    (es : list (option value)) : Prop :=
  exists r w' doc,
    res = (Ok r, w') /\
    computed_entries r = es /\
    stored w' "order" = Some (collection d "order" ++ [doc]) /\
    computed_entries (fields doc) = es.

(** The arithmetic of the handlers raises nothing but [OverflowError]. *)
Definition overflow_only {A} (r : result A) : Prop :=
  forall e, r = Raise e -> exists msg, e = OverflowError msg.

(** The store after the four samples have been inserted, in order. *)
Definition seeded (d : Database) : Database :=
  fold_left (fun d' s => inserted d' "product" s) samples d.

Definition seeded_reply : dict :=
  <["message" := VStr "Seeded"]> (<["count" := VInt 4]> ∅).

Definition already_reply (count : Z) : dict :=
  <["message" := VStr "Products already exist"]> (<["count" := VInt count]> ∅).

(** Spec 6 and 8 on [GET /products], as worded: every category
    parameter is an exact-match filter. *)
Definition exact_category_listing (d : Database) (category : option string) : Prop :=
  (list_products category (Some d)).1 =
    Ok (map serialize_doc
          match category with
          | None => collection d "product"
          | Some c => List.filter (has_category c) (collection d "product")
          end).

(** Spec 8, first property, as worded, on what [POST /orders] returns. *)
Definition returns_derived_from_rounded (v : sum_loop) (order : Order)
    (d : Database) : Prop :=
  forall r, (create_order v order (Some d)).1 = Ok r ->
  exists sub tax total,
    computed_entries r = entries_of sub tax total /\
    derived_from_rounded sub tax total.

End Spec.

(* ===================================================================== *)
(** ** Sample data                                                        *)
(* ===================================================================== *)

Module Samples.
Import Py Schemas Database Main.

Definition item (p : float) (q : Z) : OrderItem :=
  {| product_id := "000000000000000000000000"; title := "Classic Tee";
     price := p; quantity := q |}.

Definition ship : ShippingInfo :=
  {| name := "Ada"; email := "ada@example.org"; address := "1 Main St";
     city := "Leeds"; country := "UK"; postal_code := "LS1" |}.

Definition order_of (its : list OrderItem) (st tx tt : float) (s : string) : Order :=
  {| items := its; shipping := ship; subtotal := st; tax := tx; total := tt;
     status := s |}.

(** [(price=19.99, qty=2), (price=12.50, qty=1)] *)
Definition two_items : list OrderItem :=
  [item (dec 1999 2) 2; item (dec 1250 2) 1].

Definition empty_db : Database := {| collections := ∅; next_oid := 0 |}.

(** Two requests with the same items and different client-side totals. *)
Definition order_a : Order := order_of two_items fzero fzero fzero "pending".
Definition order_b : Order :=
  order_of two_items (dec 9999 2) (dec 1 2) (dec 1 2) "paid".

Definition item_body (p : float) (q : Z) : OrderItemBody :=
  {| in_product_id := Some "000000000000000000000000";
     in_title := Some "Classic Tee"; in_price := Some p; in_quantity := Some q |}.

(** Two request bodies with the same items; the second one claims other
    totals and another status. *)
Definition body_a : OrderBody :=
  {| in_items := Some [item_body (dec 1999 2) 2; item_body (dec 1250 2) 1];
     in_shipping := Some ship;
     in_subtotal := Some fzero; in_tax := Some fzero; in_total := Some fzero;
     in_status := None |}.

Definition body_b : OrderBody :=
  {| in_items := Some [item_body (dec 1999 2) 2; item_body (dec 1250 2) 1];
     in_shipping := Some ship;
     in_subtotal := Some (dec 9999 2); in_tax := Some (dec 1 2);
     in_total := Some (dec 1 2); in_status := Some "paid" |}.

(** A body whose subtotal is -5.5. *)
Definition negative_body : OrderBody :=
  {| in_items := Some []; in_shipping := Some ship;
     in_subtotal := Some (dec (-550) 2); in_tax := Some fzero;
     in_total := Some fzero; in_status := None |}.

Definition valid_body : OrderBody :=
  {| in_items := Some []; in_shipping := Some ship;
     in_subtotal := Some fzero; in_tax := Some fzero;
     in_total := Some fzero; in_status := None |}.

End Samples.

(* ===================================================================== *)
(** ** The diagnostic route                                               *)
(* ===================================================================== *)

Module Diagnostics.
Import Py Database Main.

(** A [str] of which a slice is taken is given character by character,
    each character as the string of its UTF-8 bytes; [text] is the [str]
    as every other one is written here, and [cs[:n]] is [firstn n cs]. *)
Definition chars := list string.

Definition text (cs : chars) : string := String.concat "" cs.

(** What [GET /test] observes besides [db]: the value of
    [os.getenv("DATABASE_URL")]; [_db.name], or [None] when
    [hasattr(_db, 'name')] is false; and the result of
    [_db.list_collection_names()], which is the list of names or, when the
    call raises an exception [e], [inl m] with [m] the characters of
    [str(e)]. *)
Record Probe := {
  DATABASE_URL : option string;
  name_attr : option string;
  list_collection_names : chars + list string;
}.

Definition initial_response : dict :=
  <["backend" := VStr "✅ Running"]>
 (<["database" := VStr "❌ Not Available"]>
 (<["database_url" := VNone]>
 (<["database_name" := VNone]>
 (<["connection_status" := VStr "Not Connected"]>
 (<["collections" := VList []]> ∅))))).

(** [GET /test].  The import, [os.getenv], [hasattr] and the [name]
    attribute do not raise, and what [list_collection_names] raises is
    caught by the inner [try]: the outer handler has nothing to catch. *)
Definition test_database (p : Probe) (w : world) : dict :=
  let response := initial_response in
  match w with
  | Some _ =>
      let response := <["database" := VStr "✅ Connected & Working"]> response in
      let response :=
        <["database_url" :=
            VStr (if truthy (DATABASE_URL p) then "✅ Set" else "❌ Not Set")]> response in
      let response :=
        <["database_name" := VStr (default "✅ Connected" (name_attr p))]> response in
      let response := <["connection_status" := VStr "Connected"]> response in
      match list_collection_names p with
      | inr collections =>
          <["collections" := VList (map VStr (firstn 10 collections))]> response
      | inl m =>
          <["database" := VStr ("⚠️  Connected but Error: " ++ text (firstn 50 m))]> response
      end
  | None => <["database" := VStr "⚠️  Available but not initialized"]> response
  end.

End Diagnostics.

(* ===================================================================== *)
(** ** Further vocabulary                                                 *)
(* ===================================================================== *)

Module Facts.
Import Py Schemas Database Main Spec.

(** An order read off a body: the order holds the values of the body,
    field by field and item by item, with the status of the body or
    ["pending"] when it has none; every quantity is [>= 1] and every
    price and total satisfies [ok]. *)
Definition item_with (ok : float -> Prop) (ib : OrderItemBody) (i : OrderItem) : Prop :=
  in_product_id ib = Some (product_id i) /\
  in_title ib = Some (title i) /\
  in_price ib = Some (price i) /\ ok (price i) /\
  in_quantity ib = Some (quantity i) /\ 1 <= quantity i.


(** [x >= 0] holds, and [x < 0] does not. *)
Definition ge0 (x : float) : Prop := fge x fzero = true.

(** An item body that alone makes validation fail. *)
Definition item_rejected (ib : OrderItemBody) : Prop :=
  in_product_id ib = None \/ in_title ib = None \/
  in_price ib = None \/ in_quantity ib = None \/
  (exists p, in_price ib = Some p /\ negative p = true) \/
  (exists q, in_quantity ib = Some q /\ q < 1).

(** The identifiers of a collection as the store keeps them: every
    document has one, of 12 bytes, and no two documents share one. *)
Definition ids_ok (c : list document) : Prop :=
  NoDup (map _id c) /\
  Forall (fun doc => exists o, _id doc = Some o /\ (o < 2 ^ 96)%N) c.

(** The store as the handlers keep it: the identifiers handed out so far
    are below the next one, and no two documents of a collection share
    one. *)
Definition store_ok (d : Database) : Prop :=
  (next_oid d < 2 ^ 96)%N /\
  forall name,
    NoDup (map _id (collection d name)) /\
    Forall (fun doc => exists o, _id doc = Some o /\ (o < next_oid d)%N)
      (collection d name).

(** [x >= 0]: not a NaN and not below zero. *)
Definition num_nonneg (a : num) : Prop :=
  match a with
  | NInt z => 0 <= z
  | NFloat f => fge f fzero = true
  end.

(** An item as validation leaves it: [price >= 0] and [quantity >= 1]. *)
Definition item_checked (i : OrderItem) : Prop :=
  fge (price i) fzero = true /\ 1 <= quantity i.

Definition is_hex (c : ascii) : bool :=
  match hex_value c with Some _ => true | None => false end.

(** ASCII whitespace: space, tab, line feed, vertical tab, form feed and
    carriage return. *)
Definition is_space (c : ascii) : bool :=
  let n := N_of_ascii c in (n =? 32)%N || ((9 <=? n)%N && (n <=? 13)%N).

(** Some character of [s] is neither a hexadecimal digit nor whitespace. *)
Fixpoint has_foreign (s : string) : bool :=
  match s with
  | EmptyString => false
  | String c s' => (negb (is_hex c) && negb (is_space c)) || has_foreign s'
  end.

Fixpoint all_hex (s : string) : bool :=
  match s with
  | EmptyString => true
  | String c s' => is_hex c && all_hex s'
  end.

End Facts.

(* ===================================================================== *)
(** ** Further sample data                                                *)
(* ===================================================================== *)

Module Cases.
Import Py Schemas Database Main Samples.

(** A body whose second item has quantity 0. *)
Definition zero_quantity_body : OrderBody :=
  {| in_items := Some [item_body (dec 1999 2) 2; item_body (dec 1250 2) 0];
     in_shipping := Some ship;
     in_subtotal := Some fzero; in_tax := Some fzero; in_total := Some fzero;
     in_status := None |}.

(** An order whose second item has a quantity of [2^1024]. *)
Definition huge_order : Order :=
  order_of [item (dec 1999 2) 1; item (dec 1250 2) (2 ^ 1024)]
    fzero fzero fzero "pending".

End Cases.

(* ===================================================================== *)
(** ** Properties                                                         *)
(* ===================================================================== *)

Import Py Schemas Database Main Spec Samples.

(** Reduce the binds of both monads as far as the results are known. *)
Ltac run :=
  unfold mbind, M_bind, result_bind, fmap, result_fmap, bind, lift, ret,
    raise, get_db;
  cbv beta iota.

(** *** Well-formed doubles *)

Lemma fexp_eq e : fexp prec emax e = Z.max (e - 53) (-1074).
Proof. reflexivity. Qed.

Lemma digits2_pos_bounds p :
  2 ^ (Zpos (digits2_pos p) - 1) <= Zpos p < 2 ^ Zpos (digits2_pos p).
Proof.
  induction p as [p IH|p IH|]; cbn [digits2_pos]; [| |cbn; lia];
    rewrite Pos2Z.inj_succ;
    replace (Z.succ (Zpos (digits2_pos p)) - 1) with (Z.succ (Zpos (digits2_pos p) - 1)) by lia;
    rewrite !Z.pow_succ_r by lia; lia.
Qed.

Lemma Zdigits2_log2 m : 0 < m -> Zdigits2 m = Z.log2 m + 1.
Proof.
  destruct m as [|p|p]; try lia. intros _. cbn [Zdigits2].
  pose proof (digits2_pos_bounds p) as [Hlo Hhi].
  rewrite (Z.log2_unique (Zpos p) (Zpos (digits2_pos p) - 1)); [lia|lia|].
  replace (Z.succ (Zpos (digits2_pos p) - 1)) with (Zpos (digits2_pos p)) by lia.
  split; assumption.
Qed.

Lemma Zdigits2_nonneg m : 0 <= Zdigits2 m.
Proof. destruct m; cbn; lia. Qed.

Lemma Zdigits2_pos m : 0 < m -> 0 < Zdigits2 m.
Proof. destruct m; cbn; lia. Qed.

(** digits of a right shift *)
Lemma Zdigits2_div_pow2 m n :
  0 <= m -> 0 <= n -> Zdigits2 (m / 2 ^ n) = Z.max 0 (Zdigits2 m - n).
Proof.
  intros Hm Hn.
  destruct (Z.eq_dec m 0) as [->|Hm0].
  { rewrite Z.div_0_l by (apply Z.pow_nonzero; lia). cbn. lia. }
  assert (Hmpos : 0 < m) by lia.
  rewrite <- Z.shiftr_div_pow2 by lia.
  destruct (Z.eq_dec (Z.shiftr m n) 0) as [H0|Hne].
  - rewrite H0. cbn [Zdigits2].
    apply Z.shiftr_eq_0_iff in H0 as [->|[_ Hlt]]; [lia|].
    rewrite Zdigits2_log2 by lia. lia.
  - assert (0 <= Z.shiftr m n) by (apply Z.shiftr_nonneg; lia).
    rewrite !Zdigits2_log2 by lia.
    rewrite Z.log2_shiftr by lia.
    assert (n <= Z.log2 m).
    { destruct (Z_le_gt_dec n (Z.log2 m)); [assumption|].
      exfalso. apply Hne. apply Z.shiftr_eq_0; lia. }
    lia.
Qed.

Lemma Zdigits2_succ m : 0 <= m -> Zdigits2 m <= Zdigits2 (m + 1) <= Zdigits2 m + 1.
Proof.
  intros Hm. destruct (Z.eq_dec m 0) as [->|Hne]; [change (0 + 1) with 1; cbn; lia|].
  rewrite !Zdigits2_log2 by lia.
  pose proof (Z.log2_le_mono m (m + 1) ltac:(lia)).
  pose proof (Z.log2_succ_le m). unfold Z.succ in *. lia.
Qed.

Lemma round_nearest_even_bounds m l :
  round_nearest_even m l = m \/ round_nearest_even m l = m + 1.
Proof.
  destruct l as [|[]]; cbn [round_nearest_even]; auto.
  destruct (Z.even m); auto.
Qed.

(** right shifts *)
Lemma shr_1_m mrs : 0 <= shr_m mrs -> shr_m (shr_1 mrs) = shr_m mrs / 2.
Proof.
  destruct mrs as [m r s]. cbn [shr_m]. intros Hm.
  destruct m as [|[p|p|]|p]; cbn [shr_1 shr_m]; try lia; try reflexivity.
  - rewrite Pos2Z.inj_xI. apply Z.div_unique with 1; lia.
  - rewrite Pos2Z.inj_xO. apply Z.div_unique with 0; lia.
Qed.

Lemma pow2_xO p : 2 ^ Zpos p~0 = 2 ^ Zpos p * 2 ^ Zpos p.
Proof. rewrite <- Z.pow_add_r by lia. f_equal. lia. Qed.

Lemma pow2_xI p : 2 ^ Zpos p~1 = 2 * (2 ^ Zpos p * 2 ^ Zpos p).
Proof.
  rewrite <- Z.pow_add_r, <- Z.pow_succ_r by lia. f_equal. lia.
Qed.

Lemma iter_shr_1_m p : forall mrs,
  0 <= shr_m mrs -> shr_m (SpecFloat.iter_pos shr_1 p mrs) = shr_m mrs / 2 ^ Zpos p.
Proof.
  assert (Hpow : forall q, 0 < 2 ^ Zpos q) by (intros; apply Z.pow_pos_nonneg; lia).
  induction p as [p IH|p IH|]; intros mrs Hm; cbn [SpecFloat.iter_pos].
  - assert (H1 : 0 <= shr_m (shr_1 mrs)).
    { rewrite shr_1_m by assumption. apply Z.div_pos; lia. }
    assert (H2 : 0 <= shr_m (SpecFloat.iter_pos shr_1 p (shr_1 mrs))).
    { rewrite IH by assumption. apply Z.div_pos; [lia|apply Hpow]. }
    rewrite IH, IH, shr_1_m by assumption.
    pose proof (Hpow p).
    rewrite !Z.div_div by lia. rewrite pow2_xI. f_equal; lia.
  - assert (H2 : 0 <= shr_m (SpecFloat.iter_pos shr_1 p mrs)).
    { rewrite IH by assumption. apply Z.div_pos; [lia|apply Hpow]. }
    rewrite IH, IH by assumption.
    pose proof (Hpow p).
    rewrite !Z.div_div by lia. rewrite pow2_xO. reflexivity.
  - rewrite shr_1_m by assumption. reflexivity.
Qed.

Lemma shr_fexp_spec m e l :
  0 <= m ->
  exists mrs,
    shr_fexp prec emax m e l =
      (mrs, e + Z.max 0 (fexp prec emax (Zdigits2 m + e) - e)) /\
    shr_m mrs = m / 2 ^ Z.max 0 (fexp prec emax (Zdigits2 m + e) - e).
Proof.
  intros Hm. unfold shr_fexp, shr.
  assert (Hrec : shr_m (shr_record_of_loc m l) = m).
  { destruct l as [|[]]; reflexivity. }
  destruct (fexp prec emax (Zdigits2 m + e) - e) as [|p|p] eqn:Hn.
  - eexists. split; [f_equal; lia|]. rewrite Hrec, Z.div_1_r. reflexivity.
  - eexists. split; [f_equal; lia|].
    rewrite iter_shr_1_m by (rewrite Hrec; assumption).
    rewrite Hrec. f_equal.
  - eexists. split; [f_equal; lia|]. rewrite Hrec.
    replace (Z.max 0 (Z.neg p)) with 0 by lia. rewrite Z.div_1_r. reflexivity.
Qed.

Lemma binary_round_aux_cases s mx ex lx :
  0 <= mx ->
  exists m1 m2 e1 e2,
    e1 = ex + Z.max 0 (fexp prec emax (Zdigits2 mx + ex) - ex) /\
    (m1 = mx / 2 ^ (e1 - ex) \/ m1 = mx / 2 ^ (e1 - ex) + 1) /\
    e2 = e1 + Z.max 0 (fexp prec emax (Zdigits2 m1 + e1) - e1) /\
    m2 = m1 / 2 ^ (e2 - e1) /\
    binary_round_aux prec emax s mx ex lx =
      match m2 with
      | Z0 => S754_zero s
      | Zpos m => if e2 <=? emax - prec then S754_finite s m e2 else S754_infinity s
      | Zneg _ => S754_nan
      end.
Proof.
  intros Hmx. unfold binary_round_aux.
  destruct (shr_fexp_spec mx ex lx Hmx) as (mrs1 & -> & Hm1).
  set (e1 := ex + Z.max 0 (fexp prec emax (Zdigits2 mx + ex) - ex)) in *.
  set (m1 := round_nearest_even (shr_m mrs1) (loc_of_shr_record mrs1)).
  assert (H1 : 0 <= shr_m mrs1).
  { rewrite Hm1. apply Z.div_pos; [lia|]. apply Z.pow_pos_nonneg; lia. }
  assert (Hm1' : 0 <= m1).
  { subst m1. destruct (round_nearest_even_bounds (shr_m mrs1)
      (loc_of_shr_record mrs1)) as [-> | ->]; lia. }
  destruct (shr_fexp_spec m1 e1 loc_Exact Hm1') as (mrs2 & -> & Hm2).
  exists m1, (shr_m mrs2), e1, (e1 + Z.max 0 (fexp prec emax (Zdigits2 m1 + e1) - e1)).
  split; [reflexivity|]. split.
  { replace (e1 - ex) with (Z.max 0 (fexp prec emax (Zdigits2 mx + ex) - ex))
      by (subst e1; lia).
    rewrite <- Hm1. apply round_nearest_even_bounds. }
  split; [reflexivity|]. split.
  { rewrite Hm2. f_equal. f_equal. lia. }
  reflexivity.
Qed.

(** Whatever goes through [binary_round_aux] with enough digits comes out
    as a well-formed binary64. *)
Lemma binary_round_aux_valid s mx ex lx :
  0 <= mx -> ex <= fexp prec emax (Zdigits2 mx + ex) ->
  valid (binary_round_aux prec emax s mx ex lx) = true.
Proof.
  intros Hmx Hex.
  destruct (binary_round_aux_cases s mx ex lx Hmx)
    as (m1 & m2 & e1 & e2 & He1 & Hm1 & He2 & Hm2 & ->).
  destruct m2 as [|m|m]; try reflexivity.
  destruct (e2 <=? emax - prec) eqn:Hle; [|reflexivity].
  unfold valid, valid_binary, bounded, canonical_mantissa.
  rewrite Hle, andb_true_r. apply Z.eqb_eq.
  change (Zpos (digits2_pos m)) with (Zdigits2 (Zpos m)).
  assert (Hpow : 0 < 2 ^ (e1 - ex)) by (apply Z.pow_pos_nonneg; lia).
  assert (Hq : 0 <= mx / 2 ^ (e1 - ex)) by (apply Z.div_pos; lia).
  pose proof (Zdigits2_div_pow2 mx (e1 - ex) Hmx ltac:(lia)) as Ha.
  pose proof (Zdigits2_succ _ Hq) as Hs.
  assert (Hm1' : 0 <= m1) by (destruct Hm1; lia).
  pose proof (Zdigits2_div_pow2 m1 (e2 - e1) Hm1' ltac:(lia)) as Hc.
  rewrite <- Hm2 in Hc.
  assert (Hb : Zdigits2 (mx / 2 ^ (e1 - ex)) <= Zdigits2 m1 <=
               Zdigits2 (mx / 2 ^ (e1 - ex)) + 1).
  { destruct Hm1 as [-> | ->]; lia. }
  assert (Hpos : 0 < Zdigits2 (Zpos m)) by (apply Zdigits2_pos; lia).
  rewrite fexp_eq in *. lia.
Qed.

Lemma binary_round_aux_finite s mx ex lx :
  0 <= mx ->
  Z.max ex (fexp prec emax (Zdigits2 mx + ex + 1)) <= emax - prec ->
  isfinite (binary_round_aux prec emax s mx ex lx) = true.
Proof.
  intros Hmx Hex.
  destruct (binary_round_aux_cases s mx ex lx Hmx)
    as (m1 & m2 & e1 & e2 & He1 & Hm1 & He2 & Hm2 & ->).
  destruct m2 as [|m|m]; try reflexivity.
  - replace (e2 <=? emax - prec) with true; [reflexivity|].
    symmetry. apply Z.leb_le.
    assert (Hpow : 0 < 2 ^ (e1 - ex)) by (apply Z.pow_pos_nonneg; lia).
    assert (Hq : 0 <= mx / 2 ^ (e1 - ex)) by (apply Z.div_pos; lia).
    pose proof (Zdigits2_div_pow2 mx (e1 - ex) Hmx ltac:(lia)) as Ha.
    pose proof (Zdigits2_succ _ Hq) as Hs.
    assert (Hb : Zdigits2 m1 <= Zdigits2 (mx / 2 ^ (e1 - ex)) + 1).
    { destruct Hm1 as [-> | ->]; lia. }
    pose proof (Zdigits2_nonneg mx).
    unfold emax, prec in *. rewrite fexp_eq in *. lia.
  - exfalso.
    assert (Hpow : 0 < 2 ^ (e1 - ex)) by (apply Z.pow_pos_nonneg; lia).
    assert (Hq : 0 <= mx / 2 ^ (e1 - ex)) by (apply Z.div_pos; lia).
    assert (Hm1' : 0 <= m1) by (destruct Hm1; lia).
    assert (0 <= m1 / 2 ^ (e2 - e1)).
    { apply Z.div_pos; [lia|]. apply Z.pow_pos_nonneg; lia. }
    lia.
Qed.

(** [shl_align] *)
Lemma iter_xO m d : Zpos (Pos.iter xO m d) = Zpos m * 2 ^ Zpos d.
Proof.
  induction d as [|d IH] using Pos.peano_ind.
  - cbn. lia.
  - rewrite Pos.iter_succ, Pos2Z.inj_xO, IH, Pos2Z.inj_succ, Z.pow_succ_r by lia. lia.
Qed.

Lemma Zdigits2_mul_pow2 m k :
  0 < m -> 0 <= k -> Zdigits2 (m * 2 ^ k) = Zdigits2 m + k.
Proof.
  intros Hm Hk.
  assert (0 < 2 ^ k) by (apply Z.pow_pos_nonneg; lia).
  rewrite !Zdigits2_log2 by nia.
  rewrite Z.log2_mul_pow2 by lia. lia.
Qed.

Lemma shl_align_spec mx ex ex' :
  exists mz ez,
    shl_align mx ex ex' = (mz, ez) /\ ez = Z.min ex ex' /\
    Zpos mz = Zpos mx * 2 ^ (ex - ez).
Proof.
  unfold shl_align.
  destruct (ex' - ex) as [|d|d] eqn:Hd.
  - exists mx, ex. split; [reflexivity|]. split; [lia|].
    replace (ex - ex) with 0 by lia. lia.
  - exists mx, ex. split; [reflexivity|]. split; [lia|].
    replace (ex - ex) with 0 by lia. lia.
  - exists (Pos.iter xO mx d), ex'. split; [reflexivity|]. split; [lia|].
    rewrite iter_xO. f_equal. f_equal. lia.
Qed.

Lemma binary_round_valid s mx ex :
  valid (binary_round prec emax s mx ex) = true.
Proof.
  unfold binary_round.
  destruct (shl_align_spec mx ex (fexp prec emax (Zpos (digits2_pos mx) + ex)))
    as (mz & ez & -> & Hez & Hmz).
  apply binary_round_aux_valid; [lia|].
  rewrite Hmz, Zdigits2_mul_pow2 by lia.
  change (Zdigits2 (Zpos mx)) with (Zpos (digits2_pos mx)).
  replace (Zpos (digits2_pos mx) + (ex - ez) + ez) with (Zpos (digits2_pos mx) + ex) by lia.
  lia.
Qed.

Lemma binary_normalize_valid m e sz :
  valid (binary_normalize prec emax m e sz) = true.
Proof.
  destruct m; cbn [binary_normalize]; [reflexivity| |]; apply binary_round_valid.
Qed.

Lemma fadd_valid x y : valid x = true -> valid y = true -> valid (fadd x y) = true.
Proof.
  intros Hx Hy. unfold fadd, SFadd.
  destruct x as [sx|sx| |sx mx ex], y as [sy|sy| |sy my ey];
    try assumption; try reflexivity;
    try (destruct sx, sy; reflexivity || assumption).
  apply binary_normalize_valid.
Qed.

Lemma fsub_valid x y : valid x = true -> valid y = true -> valid (fsub x y) = true.
Proof.
  intros Hx Hy. unfold fsub, SFsub.
  destruct x as [sx|sx| |sx mx ex], y as [sy|sy| |sy my ey];
    try assumption; try reflexivity;
    try (destruct sx, sy; reflexivity || assumption).
  apply binary_normalize_valid.
Qed.

Lemma valid_finite s m e :
  valid (S754_finite s m e) = true ->
  fexp prec emax (Zdigits2 (Zpos m) + e) = e /\ e <= emax - prec.
Proof.
  unfold valid, valid_binary, bounded, canonical_mantissa.
  intros H. apply andb_true_iff in H as [H1 H2].
  apply Z.eqb_eq in H1. apply Z.leb_le in H2. auto.
Qed.

Lemma Zdigits2_mul_ge a b :
  0 < a -> 0 < b -> Zdigits2 a + Zdigits2 b - 1 <= Zdigits2 (a * b).
Proof.
  intros Ha Hb. rewrite !Zdigits2_log2 by nia.
  pose proof (Z.log2_mul_below a b Ha Hb). lia.
Qed.

Lemma fmul_valid x y : valid x = true -> valid y = true -> valid (fmul x y) = true.
Proof.
  intros Hx Hy. unfold fmul, SFmul.
  destruct x as [sx|sx| |sx mx ex], y as [sy|sy| |sy my ey]; try reflexivity.
  apply valid_finite in Hx as [Hx _], Hy as [Hy _].
  apply binary_round_aux_valid; [lia|].
  rewrite Pos2Z.inj_mul.
  pose proof (Zdigits2_mul_ge (Zpos mx) (Zpos my) ltac:(lia) ltac:(lia)).
  pose proof (Zdigits2_pos (Zpos mx) ltac:(lia)).
  pose proof (Zdigits2_pos (Zpos my) ltac:(lia)).
  rewrite fexp_eq in *. lia.
Qed.

Lemma Zdigits2_le_pow m k : 0 <= k -> 0 <= m < 2 ^ k -> Zdigits2 m <= k.
Proof.
  intros Hk [Hm Hlt]. destruct (Z.eq_dec m 0) as [->|Hne]; [cbn; lia|].
  rewrite Zdigits2_log2 by lia.
  apply Z.log2_lt_pow2 in Hlt; lia.
Qed.

Lemma Zdigits2_ge_pow m k : 0 <= k -> 2 ^ k <= m -> k + 1 <= Zdigits2 m.
Proof.
  intros Hk Hle.
  assert (0 < 2 ^ k) by (apply Z.pow_pos_nonneg; lia).
  rewrite Zdigits2_log2 by lia.
  pose proof (Z.log2_le_mono _ _ Hle) as H1.
  rewrite Z.log2_pow2 in H1 by lia. lia.
Qed.

Lemma Zdigits2_bounds m :
  0 < m -> 2 ^ (Zdigits2 m - 1) <= m < 2 ^ Zdigits2 m.
Proof.
  destruct m as [|p|p]; try lia. intros _. apply digits2_pos_bounds.
Qed.

Lemma binary_round_finite s mx ex :
  Zdigits2 (Zpos mx) + ex <= emax - 1 ->
  isfinite (binary_round prec emax s mx ex) = true.
Proof.
  intros Hd. unfold binary_round.
  destruct (shl_align_spec mx ex (fexp prec emax (Zpos (digits2_pos mx) + ex)))
    as (mz & ez & -> & Hez & Hmz).
  apply binary_round_aux_finite; [lia|].
  rewrite Hmz, Zdigits2_mul_pow2 by lia.
  change (Zdigits2 (Zpos mx)) with (Zpos (digits2_pos mx)) in *.
  unfold emax, prec in *. rewrite fexp_eq in *. lia.
Qed.

(** An int below [2^1023] in absolute value converts to a double. *)
Lemma PyLong_AsDouble_defined z :
  Z.abs z < 2 ^ 1023 ->
  exists f, PyLong_AsDouble z = Ok f /\ valid f = true.
Proof.
  intros Hz. unfold PyLong_AsDouble.
  pose proof (binary_normalize_valid z 0 false) as Hv.
  assert (Hf : isfinite (binary_normalize prec emax z 0 false) = true).
  { destruct z as [|p|p]; cbn [binary_normalize]; [reflexivity| |];
      apply binary_round_finite;
      (assert (Zdigits2 (Zpos p) <= 1023)
         by (apply Zdigits2_le_pow; lia)); unfold emax; lia. }
  destruct (binary_normalize prec emax z 0 false);
    try discriminate Hf; eexists; (split; [reflexivity|exact Hv]).
Qed.

(** [strtod] *)
Lemma div_eucl_div_mod a b : Z.div_eucl a b = (a / b, a mod b).
Proof. unfold Z.div, Z.modulo. destruct (Z.div_eucl a b). reflexivity. Qed.

Lemma div_core_spec n d :
  exists q e l,
    SFdiv_core_binary prec emax (Zpos n) 0 (Zpos d) 0 = (q, e, l) /\
    0 <= q /\ e <= 0 /\ e <= fexp prec emax (Zdigits2 q + e) /\
    Zdigits2 q + e <= Z.max 0 (Zdigits2 (Zpos n) - Zdigits2 (Zpos d) + 1).
Proof.
  unfold SFdiv_core_binary.
  set (d1 := Zdigits2 (Zpos n)). set (d2 := Zdigits2 (Zpos d)).
  set (e' := Z.min (fexp prec emax (d1 + 0 - (d2 + 0))) (0 - 0)).
  set (m' := match 0 - 0 - e' with
             | 0 => Zpos n
             | Zpos _ => Z.shiftl (Zpos n) (0 - 0 - e')
             | Zneg _ => 0
             end).
  assert (He' : e' <= 0) by (subst e'; lia).
  assert (Hm' : m' = Zpos n * 2 ^ (- e')).
  { subst m'. destruct (0 - 0 - e') as [|p|p] eqn:Hs.
    - replace (- e') with 0 by lia. lia.
    - rewrite Z.shiftl_mul_pow2 by lia. f_equal. f_equal. lia.
    - lia. }
  rewrite div_eucl_div_mod.
  exists (m' / Zpos d), e', (new_location (Zpos d) (m' mod Zpos d)).
  split; [reflexivity|].
  assert (Hpow : 0 < 2 ^ (- e')) by (apply Z.pow_pos_nonneg; lia).
  assert (Hq : 0 <= m' / Zpos d) by (apply Z.div_pos; nia).
  split; [exact Hq|]. split; [exact He'|].
  pose proof (Zdigits2_bounds (Zpos n) ltac:(lia)) as [Hn1 Hn2].
  pose proof (Zdigits2_bounds (Zpos d) ltac:(lia)) as [Hd1 Hd2].
  fold d1 in Hn1, Hn2. fold d2 in Hd1, Hd2.
  assert (Hd1pos : 0 < d1) by (apply Zdigits2_pos; lia).
  assert (Hd2pos : 0 < d2) by (apply Zdigits2_pos; lia).
  split.
  - (* enough digits *)
    destruct (Z.eq_dec e' (-1074)) as [He|He].
    { rewrite fexp_eq. lia. }
    assert (Hk : 52 <= d1 - e' - d2 - 1).
    { subst e'. rewrite fexp_eq in *. lia. }
    assert (Hlow : 2 ^ (d1 - e' - d2 - 1) <= m' / Zpos d).
    { apply Z.div_le_lower_bound; [lia|].
      rewrite Hm'.
      assert (Hsplit : 2 ^ (d1 - 1) * 2 ^ (- e') =
                       2 ^ d2 * 2 ^ (d1 - e' - d2 - 1)).
      { rewrite <- !Z.pow_add_r by lia. f_equal. lia. }
      assert (0 < 2 ^ (d1 - e' - d2 - 1)) by (apply Z.pow_pos_nonneg; lia).
      nia. }
    pose proof (Zdigits2_ge_pow (m' / Zpos d) (d1 - e' - d2 - 1) ltac:(lia) Hlow).
    rewrite fexp_eq. lia.
  - (* not too many *)
    destruct (Z.eq_dec (m' / Zpos d) 0) as [->|Hne]; [cbn [Zdigits2]; lia|].
    assert (Hup : m' / Zpos d < 2 ^ (d1 - e' - d2 + 1)).
    { destruct (Z_lt_le_dec (d1 - e' - d2 + 1) 0) as [Hneg|Hnn].
      - exfalso. apply Hne. apply Z.div_small. split; [nia|].
        rewrite Hm'.
        assert (2 ^ d1 * 2 ^ (- e') <= 2 ^ (d2 - 1)).
        { rewrite <- Z.pow_add_r by lia. apply Z.pow_le_mono_r; lia. }
        nia.
      - apply Z.div_lt_upper_bound; [lia|]. rewrite Hm'.
        assert (Hsplit : 2 ^ (d2 - 1) * 2 ^ (d1 - e' - d2 + 1) =
                         2 ^ d1 * 2 ^ (- e')).
        { rewrite <- !Z.pow_add_r by lia. f_equal. lia. }
        assert (0 < 2 ^ (d1 - e' - d2 + 1)) by (apply Z.pow_pos_nonneg; lia).
        nia. }
    assert (Hdq : Zdigits2 (m' / Zpos d) <= d1 - e' - d2 + 1).
    { destruct (Z_lt_le_dec (d1 - e' - d2 + 1) 0) as [Hneg|Hnn].
      - rewrite Z.pow_neg_r in Hup by lia. lia.
      - apply Zdigits2_le_pow; lia. }
    lia.
Qed.

Lemma strtod_valid s n d : valid (strtod s n d) = true.
Proof.
  unfold strtod. destruct n as [|p|p]; try reflexivity.
  destruct (div_core_spec p d) as (q & e & l & -> & Hq & _ & He & _).
  apply binary_round_aux_valid; assumption.
Qed.

Lemma strtod_finite s n d :
  Zdigits2 n - Zdigits2 (Zpos d) + 1 <= emax - 1 ->
  isfinite (strtod s n d) = true.
Proof.
  intros Hd. unfold strtod. destruct n as [|p|p]; try reflexivity.
  destruct (div_core_spec p d) as (q & e & l & -> & Hq & He0 & He & Hdig).
  apply binary_round_aux_finite; [assumption|].
  unfold emax, prec in *. rewrite fexp_eq in *. lia.
Qed.

(** Shifting out zeros is exact. *)
Lemma shr_1_exact m :
  0 <= m ->
  shr_1 {| shr_m := m * 2; shr_r := false; shr_s := false |} =
    {| shr_m := m; shr_r := false; shr_s := false |}.
Proof.
  intros Hm. destruct m as [|p|p]; [reflexivity| |lia].
  replace (Zpos p * 2) with (Zpos p~0) by lia. reflexivity.
Qed.

Lemma iter_shr_1_exact p : forall m,
  0 <= m ->
  SpecFloat.iter_pos shr_1 p
    {| shr_m := m * 2 ^ Zpos p; shr_r := false; shr_s := false |} =
    {| shr_m := m; shr_r := false; shr_s := false |}.
Proof.
  assert (Hpow : forall q, 0 < 2 ^ Zpos q) by (intros; apply Z.pow_pos_nonneg; lia).
  induction p as [p IH|p IH|]; intros m Hm; cbn [SpecFloat.iter_pos].
  - pose proof (Hpow p).
    replace (m * 2 ^ Zpos p~1) with (m * 2 ^ Zpos p * 2 ^ Zpos p * 2)
      by (rewrite pow2_xI; lia).
    rewrite shr_1_exact by nia. rewrite IH by nia. apply IH. lia.
  - pose proof (Hpow p).
    replace (m * 2 ^ Zpos p~0) with (m * 2 ^ Zpos p * 2 ^ Zpos p)
      by (rewrite pow2_xO; lia).
    rewrite IH by nia. apply IH. lia.
  - replace (m * 2 ^ 1) with (m * 2) by lia. apply shr_1_exact. lia.
Qed.

(** A double, given with [k] extra zero bits, rounds to itself. *)
Lemma binary_round_aux_exact s m e k :
  valid (S754_finite s m e) = true -> 0 <= k ->
  binary_round_aux prec emax s (Zpos m * 2 ^ k) (e - k) loc_Exact =
    S754_finite s m e.
Proof.
  intros Hv Hk. apply valid_finite in Hv as [Hc Hb].
  unfold binary_round_aux, shr_fexp.
  rewrite Zdigits2_mul_pow2 by lia.
  replace (Zdigits2 (Zpos m) + k + (e - k)) with (Zdigits2 (Zpos m) + e) by lia.
  rewrite Hc. replace (e - (e - k)) with k by lia.
  cbn [shr_record_of_loc].
  assert (Hshr : shr {| shr_m := Zpos m * 2 ^ k; shr_r := false; shr_s := false |}
                   (e - k) k =
                 ({| shr_m := Zpos m; shr_r := false; shr_s := false |}, e)).
  { unfold shr. destruct k as [|p|p]; [| |lia].
    - f_equal; [f_equal|]; lia.
    - rewrite iter_shr_1_exact by lia. f_equal. lia. }
  rewrite Hshr. cbn [shr_m loc_of_shr_record round_nearest_even].
  change (Zdigits2 (Zpos m)) with (Zpos (digits2_pos m)) in *.
  cbn [Zdigits2]. rewrite Hc. replace (e - e) with 0 by lia.
  cbn [shr shr_m].
  replace (e <=? emax - prec) with true by (symmetry; apply Z.leb_le; exact Hb).
  reflexivity.
Qed.

Lemma div_half_even_bounds a b :
  a / Zpos b <= div_half_even a b <= a / Zpos b + 1.
Proof.
  unfold div_half_even.
  destruct (2 * (a mod Zpos b) ?= Zpos b); [destruct (Z.even _)| |]; lia.
Qed.

Lemma div_half_even_1 a : div_half_even a 1 = a.
Proof.
  unfold div_half_even. rewrite Z.div_1_r, Z.mod_1_r. reflexivity.
Qed.

(** [round(x, 2)] of a double without fractional bits is that double. *)
Lemma double_round_integral s m e :
  valid (S754_finite s m e) = true -> 0 <= e ->
  double_round (S754_finite s m e) 2 = Ok (S754_finite s m e).
Proof.
  intros Hv He. unfold double_round, scaled_digits.
  replace (0 <=? e) with true by (symmetry; apply Z.leb_le; exact He).
  change (0 <=? 2) with true. cbv iota.
  change (Z.to_pos (1 * 1)) with 1%positive.
  change (Z.to_pos (10 ^ 2)) with 100%positive.
  rewrite div_half_even_1.
  assert (Hpow : 0 < 2 ^ e) by (apply Z.pow_pos_nonneg; lia).
  destruct (Zpos m * 2 ^ e * 10 ^ 2) as [|p|p] eqn:Hn; try nia.
  unfold strtod, SFdiv_core_binary.
  set (e' := Z.min (fexp prec emax (Zdigits2 (Zpos p) + 0 - (Zdigits2 100 + 0))) (0 - 0)).
  set (m' := match 0 - 0 - e' with
             | 0 => Zpos p
             | Zpos _ => Z.shiftl (Zpos p) (0 - 0 - e')
             | Zneg _ => 0
             end).
  assert (He' : e' <= 0) by (subst e'; lia).
  assert (Hm' : m' = Zpos m * 2 ^ (e - e') * 100).
  { assert (m' = Zpos p * 2 ^ (- e')) as ->.
    { subst m'. destruct (0 - 0 - e') as [|q|q] eqn:Hs.
      - replace (- e') with 0 by lia. lia.
      - rewrite Z.shiftl_mul_pow2 by lia. f_equal. f_equal. lia.
      - lia. }
    rewrite <- Hn. replace (e - e') with (e + - e') by lia.
    rewrite Z.pow_add_r by lia. change (10 ^ 2) with 100. lia. }
  rewrite div_eucl_div_mod, Hm', Z.div_mul, Z.mod_mul by lia.
  change (new_location 100 0) with loc_Exact.
  pose proof (binary_round_aux_exact s m e (e - e') Hv ltac:(lia)) as Hx.
  replace (e - (e - e')) with e' in Hx by lia.
  rewrite Hx. reflexivity.
Qed.

(** On a well-formed double [round(x, 2)] never overflows, and its result
    is a well-formed double. *)
Lemma double_round_defined x :
  valid x = true -> exists r, double_round x 2 = Ok r /\ valid r = true.
Proof.
  intros Hv. destruct x as [s|s| |s m e]; try (eexists; split; [reflexivity|exact Hv]).
  destruct (Z_le_gt_dec 0 e) as [He|He].
  { exists (S754_finite s m e). split; [|exact Hv].
    apply double_round_integral; assumption. }
  pose proof (valid_finite _ _ _ Hv) as [Hc _].
  unfold double_round.
  change (0 <=? 2) with true. cbv iota.
  change (Z.to_pos (10 ^ 2)) with 100%positive.
  set (n := scaled_digits m e 2).
  assert (Hn : 0 <= n < 2 ^ 60).
  { subst n. unfold scaled_digits.
    replace (0 <=? e) with false by (symmetry; apply Z.leb_gt; lia).
    change (0 <=? 2) with true. cbv iota.
    assert (Hpow : 0 < 2 ^ (- e)) by (apply Z.pow_pos_nonneg; lia).
    pose proof (div_half_even_bounds (Zpos m * 1 * 10 ^ 2) (Z.to_pos (2 ^ (- e) * 1)))
      as [Hlo Hhi].
    rewrite Z2Pos.id in Hlo, Hhi by lia.
    assert (Hm : Zpos m < 2 ^ 53).
    { pose proof (Zdigits2_bounds (Zpos m) ltac:(lia)) as [_ Hlt].
      eapply Z.lt_le_trans; [exact Hlt|].
      apply Z.pow_le_mono_r; [lia|]. rewrite fexp_eq in Hc. lia. }
    assert (0 <= Zpos m * 1 * 10 ^ 2 / (2 ^ (- e) * 1)) by (apply Z.div_pos; lia).
    assert (Zpos m * 1 * 10 ^ 2 / (2 ^ (- e) * 1) <= Zpos m * 1 * 10 ^ 2).
    { apply Z.div_le_upper_bound; [lia|]. change (10 ^ 2) with 100. nia. }
    change (10 ^ 2) with 100 in *. change (2 ^ 53) with 9007199254740992 in Hm.
    change (2 ^ 60) with 1152921504606846976. lia. }
  pose proof (strtod_valid s n 100) as Hval.
  assert (Hfin : isfinite (strtod s n 100) = true).
  { apply strtod_finite.
    assert (Zdigits2 n <= 60) by (apply Zdigits2_le_pow; lia).
    change (Zdigits2 100) with 7. unfold emax. lia. }
  destruct (strtod s n 100); try discriminate Hfin;
    eexists; (split; [reflexivity|exact Hval]).
Qed.

Lemma float_round_defined x :
  valid x = true -> exists r, float_round x 2 = Ok r /\ valid r = true.
Proof.
  intros Hv. unfold float_round.
  destruct (negb (isfinite x)); [eexists; split; [reflexivity|exact Hv]|].
  change (NDIGITS_MAX <? 2) with false. change (2 <? NDIGITS_MIN) with false.
  cbv iota. apply double_round_defined. exact Hv.
Qed.

(** *** Running [create_order] *)

(** [create_order] computes the three totals with [order_totals], stores
    the dumped order with its four computed entries overwritten, and
    returns those entries with the new identifier; when the calculation
    raises, nothing is stored. *)
Lemma create_order_run v order d :
  create_order v order (Some d) =
    match order_totals v (items order) with
    | Ok (sub, tax, total) =>
        (Ok (<["id" := VStr (str_oid (next_oid d))]> (computed sub tax total)),
         Some (inserted d "order" (update (model_dump order) (computed sub tax total))))
    | Raise e => (Raise e, Some d)
    end.
Proof.
  unfold create_order, order_totals, unrounded_subtotal, round2, tax_rate.
  destruct (amounts (items order)) as [xs|e]; run; [|reflexivity].
  destruct (py_mul (py_sum v xs) (NFloat (dec 1 1))) as [t|e]; run; [|reflexivity].
  destruct (py_round t 2) as [tax|e]; run; [|reflexivity].
  destruct (py_add (py_sum v xs) tax) as [u|e]; run; [|reflexivity].
  destruct (py_round u 2) as [total|e]; run; [|reflexivity].
  destruct (py_round (py_sum v xs) 2) as [sub|e]; run; reflexivity.
Qed.

(** What [create_order] leaves in the ["order"] collection: the documents
    that were there, then the new one. *)
Lemma collection_inserted d name data :
  collection (inserted d name data) name =
    collection d name ++ [{| _id := Some (next_oid d); fields := data |}].
Proof.
  unfold collection at 1, inserted. cbn [collections].
  rewrite lookup_insert_eq. reflexivity.
Qed.

(** The computed entries win over those dumped from the request. *)
Lemma computed_entries_update data sub tax total :
  computed_entries (update data (computed sub tax total)) =
    [Some (of_num sub); Some (of_num tax); Some (of_num total);
     Some (VStr "pending")].
Proof.
  unfold computed_entries, update, computed.
  repeat f_equal;
    (apply lookup_union_Some_l;
     repeat (rewrite lookup_insert_ne by discriminate);
     apply lookup_insert_eq).
Qed.

Lemma computed_entries_response oid sub tax total :
  computed_entries (<["id" := VStr oid]> (computed sub tax total)) =
    [Some (of_num sub); Some (of_num tax); Some (of_num total);
     Some (VStr "pending")].
Proof.
  unfold computed_entries, computed.
  repeat f_equal;
    (repeat (rewrite lookup_insert_ne by discriminate);
     apply lookup_insert_eq).
Qed.

(** *** The calculator is defined on well-formed items *)

Lemma sum_plain_valid xs : forall f,
  valid f = true -> Forall (fun x => valid x = true) xs ->
  valid (sum_plain f xs) = true.
Proof.
  induction xs as [|x xs IH]; intros f Hf Hxs; cbn [sum_plain]; [exact Hf|].
  inversion Hxs as [|? ? Hx Hxs']; subst.
  apply IH; [apply fadd_valid; assumption | assumption].
Qed.

Lemma sum_neumaier_valid xs : forall f c,
  valid f = true -> valid c = true -> Forall (fun x => valid x = true) xs ->
  valid (sum_neumaier f c xs) = true.
Proof.
  induction xs as [|x xs IH]; intros f c Hf Hc Hxs; cbn [sum_neumaier].
  - destruct (negb (is_zero c) && isfinite c); [apply fadd_valid|]; assumption.
  - inversion Hxs as [|? ? Hx Hxs']; subst.
    apply IH; [apply fadd_valid; assumption | | assumption].
    destruct (fge (fabs f) (fabs x));
      repeat first [assumption | apply fadd_valid | apply fsub_valid].
Qed.

Lemma py_sum_ok v xs :
  Forall (fun x => valid x = true) xs -> num_ok (py_sum v xs).
Proof.
  intros Hxs. destruct xs as [|x xs]; cbn [py_sum num_ok]; [reflexivity|].
  inversion Hxs as [|? ? Hx Hxs']; subst.
  assert (H0 : valid (fadd fzero x) = true) by (apply fadd_valid; [reflexivity|assumption]).
  destruct v; cbn [float_loop];
    [apply sum_plain_valid | apply sum_neumaier_valid]; trivial.
Qed.

Lemma amounts_defined its :
  Forall item_ok its ->
  exists xs, amounts its = Ok xs /\ Forall (fun x => valid x = true) xs.
Proof.
  induction 1 as [|item its [Hp Hq] _ (xs & IH & Hxs)]; cbn [amounts].
  - exists []. split; [reflexivity|constructor].
  - destruct (PyLong_AsDouble_defined _ Hq) as (q & Hq' & Hqv).
    unfold float_mul. cbn [to_double]. rewrite Hq', IH. run.
    eexists. split; [reflexivity|]. constructor; [|exact Hxs].
    apply fmul_valid; assumption.
Qed.

Lemma to_double_defined a :
  num_ok a -> exists f, to_double a = Ok f /\ valid f = true.
Proof.
  destruct a as [z|f]; cbn [num_ok to_double]; intros H.
  - apply PyLong_AsDouble_defined. exact H.
  - eauto.
Qed.

Lemma py_mul_float_defined a y :
  num_ok a -> valid y = true ->
  exists f, py_mul a (NFloat y) = Ok (NFloat f) /\ valid f = true.
Proof.
  intros Ha Hy. destruct (to_double_defined a Ha) as (x & Hx & Hxv).
  exists (fmul x y). split; [|apply fmul_valid; assumption].
  destruct a as [z|f]; cbn [py_mul to_double] in *.
  - rewrite Hx. reflexivity.
  - injection Hx as ->. reflexivity.
Qed.

Lemma py_add_float_defined a y :
  num_ok a -> valid y = true ->
  exists f, py_add a (NFloat y) = Ok (NFloat f) /\ valid f = true.
Proof.
  intros Ha Hy. destruct (to_double_defined a Ha) as (x & Hx & Hxv).
  exists (fadd x y). split; [|apply fadd_valid; assumption].
  destruct a as [z|f]; cbn [py_add to_double] in *.
  - rewrite Hx. reflexivity.
  - injection Hx as ->. reflexivity.
Qed.

Lemma round2_defined a :
  num_ok a -> exists r, round2 a = Ok r /\ num_ok r.
Proof.
  destruct a as [z|f]; cbn [num_ok]; intros H.
  - exists (NInt z). split; [reflexivity|exact H].
  - destruct (float_round_defined f H) as (r & Hr & Hrv).
    exists (NFloat r). unfold round2. cbn [py_round]. rewrite Hr.
    split; [reflexivity|exact Hrv].
Qed.

Lemma round2_float_defined f :
  valid f = true -> exists r, round2 (NFloat f) = Ok (NFloat r) /\ valid r = true.
Proof.
  intros H. destruct (float_round_defined f H) as (r & Hr & Hrv).
  exists r. unfold round2. cbn [py_round]. rewrite Hr. split; [reflexivity|exact Hrv].
Qed.

(** On well-formed items whose quantities fit a double, the calculator
    never raises; tax and total are floats. *)
Lemma order_totals_defined v its :
  Forall item_ok its ->
  exists s sub tax total,
    unrounded_subtotal v its = Ok s /\
    (t ← py_mul s tax_rate; round2 t) = Ok (NFloat tax) /\
    (u ← py_add s (NFloat tax); round2 u) = Ok (NFloat total) /\
    round2 s = Ok sub /\
    order_totals v its = Ok (sub, NFloat tax, NFloat total).
Proof.
  intros Hits. destruct (amounts_defined its Hits) as (xs & Hxs & Hval).
  pose proof (py_sum_ok v xs Hval) as Hs.
  assert (Hun : unrounded_subtotal v its = Ok (py_sum v xs)).
  { unfold unrounded_subtotal. rewrite Hxs. reflexivity. }
  destruct (py_mul_float_defined (py_sum v xs) (dec 1 1) Hs eq_refl) as (t & Ht & Htv).
  destruct (round2_float_defined t Htv) as (tax & Htax & Htaxv).
  destruct (py_add_float_defined (py_sum v xs) tax Hs Htaxv) as (u & Hu & Huv).
  destruct (round2_float_defined u Huv) as (total & Htotal & _).
  destruct (round2_defined (py_sum v xs) Hs) as (sub & Hsub & _).
  exists (py_sum v xs), sub, tax, total.
  assert (H1 : (t0 ← py_mul (py_sum v xs) tax_rate; round2 t0) = Ok (NFloat tax)).
  { unfold tax_rate. rewrite Ht. exact Htax. }
  assert (H2 : (u0 ← py_add (py_sum v xs) (NFloat tax); round2 u0) = Ok (NFloat total)).
  { rewrite Hu. exact Htotal. }
  repeat split; try assumption.
  unfold order_totals. rewrite Hun. run. fold tax_rate.
  change (match py_mul (py_sum v xs) tax_rate with
          | Ok a => round2 a | Raise e => Raise e end)
    with (t0 ← py_mul (py_sum v xs) tax_rate; round2 t0).
  rewrite H1.
  change (match py_add (py_sum v xs) (NFloat tax) with
          | Ok a => round2 a | Raise e => Raise e end)
    with (u0 ← py_add (py_sum v xs) (NFloat tax); round2 u0).
  rewrite H2, Hsub. reflexivity.
Qed.

Lemma stored_inserted d name data :
  stored (Some (inserted d name data)) name =
    Some (collection d name ++ [{| _id := Some (next_oid d); fields := data |}]).
Proof.
  unfold stored. cbn [fmap option_fmap option_map].
  rewrite collection_inserted. reflexivity.
Qed.

(** When the calculator yields [(sub, tax, total)], these are what
    [create_order] returns and what it stores. *)
Lemma create_order_returns v order d sub tax total :
  order_totals v (items order) = Ok (sub, tax, total) ->
  returned_and_stored (create_order v order (Some d)) d (entries_of sub tax total).
Proof.
  intros Ht. rewrite create_order_run, Ht.
  eexists _, _, _. split; [reflexivity|].
  split; [apply computed_entries_response|].
  split; [apply stored_inserted|].
  cbn [fields]. apply computed_entries_update.
Qed.

(** The generator yields, item by item, the price times the quantity. *)
Lemma amounts_line_amounts its xs :
  amounts its = Ok xs -> Forall2 line_amount its xs.
Proof.
  revert xs. induction its as [|item its IH]; intros xs; cbn [amounts].
  - intros H. injection H as <-. constructor.
  - unfold float_mul. cbn [to_double].
    destruct (PyLong_AsDouble (quantity item)) as [q|] eqn:Hq; run; [|discriminate].
    destruct (amounts its) as [rest|]; run; [|discriminate].
    intros H. injection H as <-. constructor; [|apply IH; reflexivity].
    exists q. split; [exact Hq|reflexivity].
Qed.

(** The plain loop adds the terms from left to right, starting at [0.0]. *)
Lemma sum_plain_fold xs f : sum_plain f xs = fold_left fadd xs f.
Proof.
  revert f. induction xs as [|x xs IH]; intros f; [reflexivity|].
  cbn [sum_plain fold_left]. apply IH.
Qed.

(** What a result of the calculator is made of. *)
Lemma order_totals_ok_inv v its sub tax total :
  order_totals v its = Ok (sub, tax, total) ->
  exists s,
    unrounded_subtotal v its = Ok s /\
    (t ← py_mul s tax_rate; round2 t) = Ok tax /\
    (u ← py_add s tax; round2 u) = Ok total /\
    round2 s = Ok sub.
Proof.
  unfold order_totals.
  destruct (unrounded_subtotal v its) as [s|]; run; [|discriminate].
  destruct (py_mul s tax_rate) as [t|] eqn:Ht; run; [|discriminate].
  destruct (round2 t) as [tax'|] eqn:Htax; run; [|discriminate].
  destruct (py_add s tax') as [u|] eqn:Hu; run; [|discriminate].
  destruct (round2 u) as [total'|] eqn:Htotal; run; [|discriminate].
  destruct (round2 s) as [sub'|] eqn:Hsub; run; [|discriminate].
  intros H. injection H as <- <- <-. exists s.
  repeat split; run; rewrite ?Ht, ?Hu; assumption || reflexivity.
Qed.

(** A response of [create_order] carries a result of the calculator. *)
Lemma create_order_ok_inv v order d r :
  (create_order v order (Some d)).1 = Ok r ->
  exists sub tax total,
    order_totals v (items order) = Ok (sub, tax, total) /\
    computed_entries r = entries_of sub tax total.
Proof.
  rewrite create_order_run.
  destruct (order_totals v (items order)) as [[[sub tax] total]|e];
    cbn [fst]; [|discriminate].
  intros H. injection H as <-. exists sub, tax, total.
  split; [reflexivity|apply computed_entries_response].
Qed.

(** *** C1: the order total calculator *)

(** C1.  For every order, the outcome of [POST /orders] is that of the
    calculator [order_totals] on its items: when the calculator raises
    nothing is stored, otherwise its three values are returned with the
    new identifier and stored over the entries dumped from the request.
    On items that are well formed (prices are doubles, quantities convert
    to doubles) the calculator does not raise, and its values are obtained
    as follows: the unrounded subtotal [s] is the [sum] of the amounts
    price x quantity, item by item; the tax is [round(s * 0.1, 2)] and the
    total [round(s + tax, 2)], both from the unrounded [s]; the subtotal
    that is returned and stored is [round(s, 2)].  Under the plain loop
    the sum of a non-empty list is the left-to-right float sum from
    [0.0]. *)
Theorem totals_from_unrounded_subtotal (v : sum_loop) (order : Order)
    (d : Database) :
  create_order v order (Some d) =
    match order_totals v (items order) with
    | Ok (sub, tax, total) =>
        (Ok (<["id" := VStr (str_oid (next_oid d))]> (computed sub tax total)),
         Some (inserted d "order" (update (model_dump order) (computed sub tax total))))
    | Raise e => (Raise e, Some d)
    end /\
  (Forall item_ok (items order) ->
   exists xs s sub tax total,
     Forall2 line_amount (items order) xs /\
     s = py_sum v xs /\
     (xs <> [] -> py_sum Plain xs = NFloat (fold_left fadd xs fzero)) /\
     unrounded_subtotal v (items order) = Ok s /\
     (t ← py_mul s tax_rate; round2 t) = Ok tax /\
     (u ← py_add s tax; round2 u) = Ok total /\
     round2 s = Ok sub /\
     order_totals v (items order) = Ok (sub, tax, total) /\
     returned_and_stored (create_order v order (Some d)) d (entries_of sub tax total)).
Proof.
  split; [apply create_order_run|].
  intros Hok.
  destruct (order_totals_defined v _ Hok)
    as (s & sub & tax & total & Hs & Htax & Htotal & Hsub & Hall).
  unfold unrounded_subtotal in Hs.
  destruct (amounts (items order)) as [xs|] eqn:Hxs; [|discriminate Hs].
  injection Hs as <-.
  exists xs, (py_sum v xs), sub, (NFloat tax), (NFloat total).
  split; [apply amounts_line_amounts; exact Hxs|].
  split; [reflexivity|].
  split.
  { intros Hne. destruct xs as [|x xs']; [contradiction|].
    cbn [py_sum float_loop fold_left]. rewrite sum_plain_fold. reflexivity. }
  split; [unfold unrounded_subtotal; rewrite Hxs; reflexivity|].
  split; [exact Htax|]. split; [exact Htotal|]. split; [exact Hsub|].
  split; [exact Hall|].
  apply create_order_returns. exact Hall.
Qed.

(** *** C2: the totals depend on the items alone *)

Lemma validate_order_items b o :
  validate_order b = Ok o ->
  exists ibs, in_items b = Some ibs /\ validate_items ibs = Ok (items o).
Proof.
  unfold validate_order.
  destruct (in_items b) as [ibs|]; cbn [required]; run; [|discriminate].
  destruct (validate_items ibs) as [its|] eqn:Hits; run; [|discriminate].
  destruct (required (in_shipping b)); run; [|discriminate].
  destruct (required_ge fzero (in_subtotal b)); run; [|discriminate].
  destruct (required_ge fzero (in_tax b)); run; [|discriminate].
  destruct (required_ge fzero (in_total b)); run; [|discriminate].
  intros H. injection H as <-. exists ibs. split; [reflexivity|exact Hits].
Qed.

Lemma post_orders_valid v b o w :
  validate_order b = Ok o -> post_orders v b w = create_order v o w.
Proof. intros H. unfold post_orders. rewrite H. reflexivity. Qed.

(** C2.  Two request bodies that validate and carry the same items,
    whatever subtotal, tax, total, status and shipping data they carry and
    whatever the stores hold, have the same outcome: either the
    calculator raises the same exception for both and nothing is stored,
    or both requests return and store the same subtotal, tax and total,
    with status ["pending"].  The outcome is [order_totals] of the
    validated items. *)
Theorem totals_depend_on_items_only (v : sum_loop) (b1 b2 : OrderBody)
    (o1 o2 : Order) (d1 d2 : Database) :
  validate_order b1 = Ok o1 -> validate_order b2 = Ok o2 ->
  in_items b1 = in_items b2 ->
  items o1 = items o2 /\
  match order_totals v (items o1) with
  | Ok (sub, tax, total) =>
      returned_and_stored (post_orders v b1 (Some d1)) d1 (entries_of sub tax total) /\
      returned_and_stored (post_orders v b2 (Some d2)) d2 (entries_of sub tax total)
  | Raise e =>
      post_orders v b1 (Some d1) = (Raise e, Some d1) /\
      post_orders v b2 (Some d2) = (Raise e, Some d2)
  end.
Proof.
  intros Hv1 Hv2 Hin.
  assert (Hitems : items o1 = items o2).
  { destruct (validate_order_items _ _ Hv1) as (ibs1 & Hi1 & Hs1).
    destruct (validate_order_items _ _ Hv2) as (ibs2 & Hi2 & Hs2).
    rewrite Hi1, Hi2 in Hin. injection Hin as ->.
    rewrite Hs1 in Hs2. injection Hs2 as ->. reflexivity. }
  split; [exact Hitems|].
  rewrite (post_orders_valid v b1 o1 _ Hv1), (post_orders_valid v b2 o2 _ Hv2).
  destruct (order_totals v (items o1)) as [[[sub tax] total]|e] eqn:Ht.
  - split; apply create_order_returns; [|rewrite <- Hitems]; exact Ht.
  - rewrite !create_order_run, <- Hitems, Ht. split; reflexivity.
Qed.

(** *** C3: which subtotal feeds tax and total *)

(** C3, as the code has it.  Whenever [POST /orders] returns, the tax and
    the total it returns are derived from the unrounded subtotal [s], and
    the subtotal it returns is [round(s, 2)]: each value is rounded once,
    from [s].  The identities of the specification, which start from the
    rounded subtotal, hold whenever rounding leaves [s] unchanged.  On
    well-formed items the handler does return. *)
Theorem tax_and_total_from_unrounded (v : sum_loop) (order : Order)
    (d : Database) :
  (forall r, (create_order v order (Some d)).1 = Ok r ->
   exists s sub tax total,
     unrounded_subtotal v (items order) = Ok s /\
     round2 s = Ok sub /\
     (t ← py_mul s tax_rate; round2 t) = Ok tax /\
     (u ← py_add s tax; round2 u) = Ok total /\
     computed_entries r = entries_of sub tax total /\
     (sub = s -> derived_from_rounded sub tax total)) /\
  (Forall item_ok (items order) ->
   exists r w', create_order v order (Some d) = (Ok r, w')).
Proof.
  split.
  - intros r Hr.
    destruct (create_order_ok_inv v order d r Hr) as (sub & tax & total & Ht & Hent).
    destruct (order_totals_ok_inv v _ _ _ _ Ht) as (s & Hs & Htax & Htotal & Hsub).
    exists s, sub, tax, total.
    repeat (split; [assumption|]).
    intros ->. split; assumption.
  - intros Hok.
    destruct (order_totals_defined v _ Hok)
      as (s & sub & tax & total & _ & _ & _ & _ & Hall).
    destruct (create_order_returns v order d _ _ _ Hall) as (r & w' & _ & Hrun & _).
    eauto.
Qed.

(** C3, as worded, fails.  For the single item (price=0.05, quantity=3)
    the unrounded subtotal is 0.15000000000000002: the handler returns
    subtotal 0.15 and tax 0.02, whereas the tax derived from the returned
    subtotal is [round(0.15 * 0.1, 2) = 0.01].  This holds under either
    summation loop. *)
Lemma rounded_subtotal_counterexample :
  ~ returns_derived_from_rounded Plain
      (order_of [item (dec 5 2) 3] fzero fzero fzero "pending") empty_db /\
  ~ returns_derived_from_rounded Compensated
      (order_of [item (dec 5 2) 3] fzero fzero fzero "pending") empty_db.
Proof.
  split; intros H.
  all: destruct (H _ ltac:(vm_compute; reflexivity))
         as (sub & tax & total & Hent & Htax & _).
  all: vm_compute in Hent.
  all: injection Hent as Hsub Htx _.
  all: destruct sub as [z|sub]; [discriminate Hsub|injection Hsub as <-].
  all: destruct tax as [z|tax]; [discriminate Htx|injection Htx as <-].
  all: vm_compute in Htax; discriminate Htax.
Qed.

(** *** C7: the worked example *)

(** C7.  For the items [(price=19.99, quantity=2), (price=12.50,
    quantity=1)], whatever their product ids and titles, the calculator
    yields subtotal 52.48, tax 5.25 and total 57.73 (the doubles nearest to
    these decimals), under either summation loop, and [POST /orders]
    returns and stores exactly these. *)
Theorem example_totals (v : sum_loop) (pid1 t1 pid2 t2 : string)
    (sh : ShippingInfo) (st tx tt : float) (s : string) (d : Database) :
  let its := [ {| product_id := pid1; title := t1; price := dec 1999 2; quantity := 2 |};
               {| product_id := pid2; title := t2; price := dec 1250 2; quantity := 1 |} ] in
  let order := {| items := its; shipping := sh; subtotal := st; tax := tx;
                  total := tt; status := s |} in
  order_totals v its =
    Ok (NFloat (dec 5248 2), NFloat (dec 525 2), NFloat (dec 5773 2)) /\
  returned_and_stored (create_order v order (Some d)) d
    [Some (VFloat (dec 5248 2)); Some (VFloat (dec 525 2));
     Some (VFloat (dec 5773 2)); Some (VStr "pending")].
Proof.
  intros its order.
  assert (Ht : order_totals v its =
    Ok (NFloat (dec 5248 2), NFloat (dec 525 2), NFloat (dec 5773 2))).
  { destruct v; vm_compute; reflexivity. }
  split; [exact Ht|].
  apply (create_order_returns v order d _ _ _ Ht).
Qed.

(** *** C8: the empty order *)

(** C8.  [POST /orders] with an empty item list is not rejected: the body
    validates, and the handler succeeds on every order without items.  The
    subtotal is the int [0] (the start value of [sum]), tax and total are
    the float [0.0]; these are returned and stored. *)
Theorem empty_order_totals (v : sum_loop) (sh : ShippingInfo)
    (st tx tt : float) (s : string) (os : option string) (d : Database) :
  let order := {| items := []; shipping := sh; subtotal := st; tax := tx;
                  total := tt; status := s |} in
  let body := {| in_items := Some []; in_shipping := Some sh;
                 in_subtotal := Some fzero; in_tax := Some fzero;
                 in_total := Some fzero; in_status := os |} in
  (exists o, validate_order body = Ok o /\ (items o = []) /\
             (post_orders v body (Some d) = create_order v o (Some d))) /\
  order_totals v [] = Ok (NInt 0, NFloat fzero, NFloat fzero) /\
  returned_and_stored (create_order v order (Some d)) d
    [Some (VInt 0); Some (VFloat fzero); Some (VFloat fzero);
     Some (VStr "pending")].
Proof.
  intros order body.
  split.
  { eexists. split; [reflexivity|]. split; reflexivity. }
  assert (Ht : order_totals v [] = Ok (NInt 0, NFloat fzero, NFloat fzero)).
  { destruct v; vm_compute; reflexivity. }
  split; [exact Ht|].
  apply (create_order_returns v order d _ _ _ Ht).
Qed.

(** *** C4: seeding *)

Lemma for_each_create (xs : list dict) (d : Database) :
  for_each xs (create_document "product") (Some d) =
    (Ok tt, Some (fold_left (fun d' s => inserted d' "product" s) xs d)).
Proof.
  revert d. induction xs as [|x xs IH]; intros d; [reflexivity|].
  cbn [for_each fold_left]. run. cbn [create_document]. apply IH.
Qed.

Lemma collection_seeded d :
  map fields (collection (seeded d) "product") =
    map fields (collection d "product") ++ samples.
Proof.
  unfold seeded, samples. cbn [fold_left].
  rewrite !collection_inserted, !map_app, <- !app_assoc. reflexivity.
Qed.

Lemma seed_products_nonempty d :
  collection d "product" <> [] ->
  seed_products (Some d) =
    (Ok (already_reply (Z.of_nat (length (collection d "product")))), Some d).
Proof.
  intros Hne. unfold seed_products. run. unfold count_documents.
  destruct (collection d "product") as [|doc docs]; [contradiction|].
  replace (0 <? Z.of_nat (length (doc :: docs))) with true; [reflexivity|].
  symmetry. apply Z.ltb_lt. cbn [length]. lia.
Qed.

Lemma seed_products_empty d :
  collection d "product" = [] ->
  seed_products (Some d) = (Ok seeded_reply, Some (seeded d)).
Proof.
  intros He. unfold seed_products. run. rewrite He.
  change (0 <? count_documents []) with false. cbv beta iota.
  rewrite for_each_create. reflexivity.
Qed.

(** C4.  On an empty product collection [POST /seed] inserts exactly the
    four samples and answers with count 4; on a non-empty one it leaves
    the store as it is and answers with the number of documents there.
    Hence a second call changes nothing and reports the existing count. *)
Theorem seed_products_idempotent (d : Database) :
  match collection d "product" with
  | [] =>
      seed_products (Some d) = (Ok seeded_reply, Some (seeded d)) /\
      map fields (collection (seeded d) "product") = samples /\
      length samples = 4%nat
  | _ :: _ =>
      seed_products (Some d) =
        (Ok (already_reply (Z.of_nat (length (collection d "product")))), Some d)
  end /\
  exists d1,
    (seed_products (Some d)).2 = Some d1 /\
    seed_products (Some d1) =
      (Ok (already_reply (Z.of_nat (length (collection d1 "product")))), Some d1).
Proof.
  destruct (collection d "product") as [|doc docs] eqn:Hc.
  - rewrite (seed_products_empty d Hc). split.
    + split; [reflexivity|]. split; [|reflexivity].
      rewrite collection_seeded, Hc. reflexivity.
    + exists (seeded d). split; [reflexivity|].
      apply seed_products_nonempty. intros Hnil.
      pose proof (f_equal length (collection_seeded d)) as Hs.
      rewrite Hnil, length_app in Hs. cbn [map length samples] in Hs. lia.
  - assert (Hne : collection d "product" <> []) by (rewrite Hc; discriminate).
    rewrite (seed_products_nonempty d Hne), Hc. split; [reflexivity|].
    exists d. split; [reflexivity|].
    apply seed_products_nonempty. exact Hne.
Qed.

(** *** C5: fetching one product *)

Lemma find_one_none (c : list document) oid :
  find_one c oid = None -> Forall (fun doc => _id doc <> Some oid) c.
Proof.
  unfold find_one. intros H. apply List.Forall_forall. intros doc Hin Heq.
  pose proof (find_none _ _ H doc Hin) as Hf. cbn beta in Hf.
  apply bool_decide_eq_false in Hf. contradiction.
Qed.

Lemma find_one_some (c : list document) oid doc :
  find_one c oid = Some doc -> In doc c /\ _id doc = Some oid.
Proof.
  unfold find_one. intros H. apply find_some in H as [Hin Hf].
  apply bool_decide_eq_true in Hf. auto.
Qed.

(** C5.  With the database configured, [GET /products/{id}] answers 400
    to an identifier that is not a well-formed ObjectId, 404 to a
    well-formed one that no product carries, and otherwise returns the
    serialized product that carries it, under ["id"].  The store is left
    as it was. *)
Theorem get_product_outcomes (d : Database) (product_id : string) :
  match ObjectId product_id with
  | None =>
      get_product product_id (Some d) =
        (Raise (HTTPException 400 "Invalid product id"), Some d)
  | Some oid =>
      (Forall (fun doc => _id doc <> Some oid) (collection d "product") /\
       get_product product_id (Some d) =
         (Raise (HTTPException 404 "Product not found"), Some d)) \/
      (exists doc,
         In doc (collection d "product") /\ _id doc = Some oid /\
         get_product product_id (Some d) = (Ok (serialize_doc doc), Some d) /\
         serialize_doc doc !! "id" = Some (VStr (str_oid oid)))
  end.
Proof.
  unfold get_product. run.
  destruct (ObjectId product_id) as [oid|]; [|reflexivity].
  destruct (find_one (collection d "product") oid) as [doc|] eqn:Hf.
  - right. exists doc. apply find_one_some in Hf as [Hin Hid].
    repeat split; try assumption.
    unfold serialize_doc. rewrite Hid. apply lookup_insert_eq.
  - left. split; [|reflexivity]. apply find_one_none. exact Hf.
Qed.

(** *** C6: the database is not configured *)

Lemma overflow_only_ok {A} (a : A) : overflow_only (Ok a).
Proof. intros e H. discriminate H. Qed.

Lemma overflow_only_bind {A B} (r : result A) (k : A -> result B) :
  overflow_only r -> (forall a, overflow_only (k a)) -> overflow_only (r ≫= k).
Proof.
  intros Hr Hk e. destruct r as [a|e']; run.
  - apply Hk.
  - intros H. injection H as <-. apply Hr. reflexivity.
Qed.

Lemma overflow_only_fmap {A B} (r : result A) (f : A -> B) :
  overflow_only r -> overflow_only (f <$> r).
Proof.
  intros Hr. apply (overflow_only_bind r (fun a => Ok (f a)) Hr).
  intros a. apply overflow_only_ok.
Qed.

Lemma PyLong_AsDouble_overflow_only z : overflow_only (PyLong_AsDouble z).
Proof.
  unfold PyLong_AsDouble. intros e.
  destruct (binary_normalize prec emax z 0 false); intros H;
    try discriminate H.
  injection H as <-. eauto.
Qed.

Lemma to_double_overflow_only a : overflow_only (to_double a).
Proof.
  destruct a; [apply PyLong_AsDouble_overflow_only | apply overflow_only_ok].
Qed.

Lemma float_mul_overflow_only x b : overflow_only (float_mul x b).
Proof.
  apply overflow_only_bind; [apply to_double_overflow_only|].
  intros; apply overflow_only_ok.
Qed.

Lemma float_add_overflow_only x b : overflow_only (float_add x b).
Proof.
  apply overflow_only_bind; [apply to_double_overflow_only|].
  intros; apply overflow_only_ok.
Qed.

Lemma py_mul_overflow_only a b : overflow_only (py_mul a b).
Proof.
  destruct a as [x|x], b as [y|y]; cbn [py_mul];
    first [ apply overflow_only_ok
          | apply overflow_only_fmap, float_mul_overflow_only
          | apply overflow_only_bind;
            [apply PyLong_AsDouble_overflow_only | intros; apply overflow_only_ok] ].
Qed.

Lemma py_add_overflow_only a b : overflow_only (py_add a b).
Proof.
  destruct a as [x|x], b as [y|y]; cbn [py_add];
    first [ apply overflow_only_ok
          | apply overflow_only_fmap, float_add_overflow_only
          | apply overflow_only_bind;
            [apply PyLong_AsDouble_overflow_only | intros; apply overflow_only_ok] ].
Qed.

Lemma double_round_overflow_only x n : overflow_only (double_round x n).
Proof.
  unfold double_round. intros e.
  destruct x as [s|s| |s m ex]; try (intros H; discriminate H).
  destruct (if 0 <=? n then _ else _); intros H; try discriminate H.
  injection H as <-. eauto.
Qed.

Lemma py_round_overflow_only a n : overflow_only (py_round a n).
Proof.
  destruct a as [z|f]; cbn [py_round]; [apply overflow_only_ok|].
  apply overflow_only_fmap. unfold float_round.
  destruct (negb (isfinite f)); [apply overflow_only_ok|].
  destruct (NDIGITS_MAX <? n); [apply overflow_only_ok|].
  destruct (n <? NDIGITS_MIN); [apply overflow_only_ok|].
  apply double_round_overflow_only.
Qed.

Lemma amounts_overflow_only its : overflow_only (amounts its).
Proof.
  induction its as [|item its IH]; cbn [amounts]; [apply overflow_only_ok|].
  apply overflow_only_bind; [apply float_mul_overflow_only|]. intros a.
  apply overflow_only_bind; [exact IH|]. intros; apply overflow_only_ok.
Qed.

Lemma order_totals_overflow_only v its : overflow_only (order_totals v its).
Proof.
  unfold order_totals, unrounded_subtotal, round2.
  apply overflow_only_bind.
  { apply overflow_only_bind; [apply amounts_overflow_only|].
    intros; apply overflow_only_ok. }
  intros s. apply overflow_only_bind.
  { apply overflow_only_bind; [apply py_mul_overflow_only|].
    intros; apply py_round_overflow_only. }
  intros tax. apply overflow_only_bind.
  { apply overflow_only_bind; [apply py_add_overflow_only|].
    intros; apply py_round_overflow_only. }
  intros total. apply overflow_only_bind; [apply py_round_overflow_only|].
  intros; apply overflow_only_ok.
Qed.

(** Without a database [create_order] still computes the totals, and then
    fails in [create_document]. *)
Lemma create_order_unavailable v order :
  create_order v order None =
    match order_totals v (items order) with
    | Ok _ => (Raise unavailable, None)
    | Raise e => (Raise e, None)
    end.
Proof.
  unfold create_order, order_totals, unrounded_subtotal, round2, tax_rate.
  destruct (amounts (items order)) as [xs|e]; run; [|reflexivity].
  destruct (py_mul (py_sum v xs) (NFloat (dec 1 1))) as [t|e]; run; [|reflexivity].
  destruct (py_round t 2) as [tax|e]; run; [|reflexivity].
  destruct (py_add (py_sum v xs) tax) as [u|e]; run; [|reflexivity].
  destruct (py_round u 2) as [total|e]; run; [|reflexivity].
  destruct (py_round (py_sum v xs) 2) as [sub|e]; run; reflexivity.
Qed.

(** C6.  When the database is not configured, [POST /seed],
    [GET /products/{id}], [GET /products] and [POST /orders] (on any body
    that validates) all fail with status 500, and nothing is stored. *)
Theorem unavailable_database_is_500 :
  (failure_status (seed_products None).1 = Some 500 /\
   (seed_products None).2 = None) /\
  (forall product_id,
     failure_status (get_product product_id None).1 = Some 500 /\
     (get_product product_id None).2 = None) /\
  (forall category,
     failure_status (list_products category None).1 = Some 500 /\
     (list_products category None).2 = None) /\
  (forall v order,
     failure_status (create_order v order None).1 = Some 500 /\
     (create_order v order None).2 = None) /\
  (forall v body order,
     validate_order body = Ok order ->
     failure_status (post_orders v body None).1 = Some 500 /\
     (post_orders v body None).2 = None).
Proof.
  assert (Hco : forall v order,
     failure_status (create_order v order None).1 = Some 500 /\
     (create_order v order None).2 = None).
  { intros v order. rewrite create_order_unavailable.
    destruct (order_totals v (items order)) as [t|e] eqn:Ht.
    - split; reflexivity.
    - destruct (order_totals_overflow_only v _ e Ht) as [msg ->].
      split; reflexivity. }
  split; [split; reflexivity|].
  split; [intros; split; reflexivity|].
  split; [intros category; split; reflexivity|].
  split; [exact Hco|].
  intros v body order Hv. unfold post_orders. rewrite Hv. apply Hco.
Qed.

(** *** C9: listing products *)

Lemma matches_category c doc :
  matches (<["category" := VStr c]> ∅) doc = has_category c doc.
Proof.
  unfold matches, has_category.
  rewrite insert_empty, map_to_list_singleton. cbn [forallb fst snd].
  destruct (fields doc !! "category") as [[]|]; cbn [value_eqb];
    rewrite ?andb_true_r; reflexivity.
Qed.

Lemma matches_empty doc : matches ∅ doc = true.
Proof. unfold matches. rewrite map_to_list_empty. reflexivity. Qed.

Lemma filter_all {A} (f : A -> bool) (l : list A) :
  (forall x, f x = true) -> List.filter f l = l.
Proof.
  intros Hf. induction l as [|x l IH]; [reflexivity|].
  cbn [List.filter]. rewrite Hf, IH. reflexivity.
Qed.

Lemma filter_ext {A} (f g : A -> bool) (l : list A) :
  (forall x, f x = g x) -> List.filter f l = List.filter g l.
Proof.
  intros Hfg. induction l as [|x l IH]; [reflexivity|].
  cbn [List.filter]. rewrite Hfg, IH. reflexivity.
Qed.

Lemma filter_none {A} (f : A -> bool) (l : list A) :
  Forall (fun x => f x = false) l -> List.filter f l = [].
Proof.
  induction 1 as [|x l Hx _ IH]; [reflexivity|].
  cbn [List.filter]. rewrite Hx. exact IH.
Qed.

(** C9, as the code has it.  [GET /products] never fails on a configured
    database and leaves the store alone.  Without a category, or with the
    empty string as category, it returns all products; with a non-empty
    category it returns exactly the products whose category is that
    string, in store order - none at all when no product matches. *)
Theorem list_products_by_category (d : Database) (category : option string) :
  list_products category (Some d) =
    (Ok (map serialize_doc
           match category with
           | None => collection d "product"
           | Some c =>
               if String.eqb c ""
               then collection d "product"
               else List.filter (has_category c) (collection d "product")
           end),
     Some d) /\
  (forall c,
     category = Some c -> c <> "" ->
     Forall (fun doc => has_category c doc = false) (collection d "product") ->
     list_products category (Some d) = (Ok [], Some d)).
Proof.
  assert (Hrun : list_products category (Some d) =
    (Ok (map serialize_doc
           match category with
           | None => collection d "product"
           | Some c =>
               if String.eqb c ""
               then collection d "product"
               else List.filter (has_category c) (collection d "product")
           end),
     Some d)).
  { unfold list_products, get_documents. run.
    destruct category as [c|]; cbn [truthy of_optional_str].
    - destruct (String.eqb c ""); cbn [negb].
      + rewrite (filter_all _ _ matches_empty). reflexivity.
      + rewrite (filter_ext _ _ _ (matches_category c)). reflexivity.
    - rewrite (filter_all _ _ matches_empty). reflexivity. }
  split; [exact Hrun|].
  intros c -> Hc Hnone. rewrite Hrun.
  apply String.eqb_neq in Hc. rewrite Hc.
  rewrite (filter_none _ _ Hnone). reflexivity.
Qed.

(** C9, as worded, fails: after seeding, [GET /products?category=] (the
    empty string) returns the four products, none of which has the empty
    string as its category. *)
Lemma empty_category_lists_everything :
  ~ exact_category_listing (seeded empty_db) (Some "").
Proof.
  unfold exact_category_listing. intros H.
  vm_compute in H. discriminate H.
Qed.

(** *** C10: the order body must carry its totals *)

Lemma required_raises {A} (o : option A) e :
  required o = Raise e -> e = RequestValidationError.
Proof. destruct o; intros H; [discriminate H | injection H as <-; reflexivity]. Qed.

Lemma required_ge_ok b o x :
  required_ge b o = Ok x -> o = Some x /\ fge x b = true.
Proof.
  unfold required_ge. destruct o as [y|]; run; cbn [required]; [|discriminate].
  destruct (fge y b) eqn:Hy; [|discriminate].
  intros H. injection H as <-. auto.
Qed.

Lemma required_ge_raises b o e :
  required_ge b o = Raise e -> e = RequestValidationError.
Proof.
  unfold required_ge. destruct o as [y|]; run; cbn [required].
  - destruct (fge y b); intros H; [discriminate H | injection H as <-; reflexivity].
  - intros H; injection H as <-; reflexivity.
Qed.

Lemma required_ge_int_raises b o e :
  required_ge_int b o = Raise e -> e = RequestValidationError.
Proof.
  unfold required_ge_int. destruct o as [y|]; run; cbn [required].
  - destruct (b <=? y); intros H; [discriminate H | injection H as <-; reflexivity].
  - intros H; injection H as <-; reflexivity.
Qed.

Lemma validate_item_raises b e :
  validate_item b = Raise e -> e = RequestValidationError.
Proof.
  unfold validate_item.
  destruct (required (in_product_id b)) eqn:H1; run;
    [|intros H; injection H as <-; eapply required_raises; eassumption].
  destruct (required (in_title b)) eqn:H2; run;
    [|intros H; injection H as <-; eapply required_raises; eassumption].
  destruct (required_ge fzero (in_price b)) eqn:H3; run;
    [|intros H; injection H as <-; eapply required_ge_raises; eassumption].
  destruct (required_ge_int 1 (in_quantity b)) eqn:H4; run;
    [|intros H; injection H as <-; eapply required_ge_int_raises; eassumption].
  discriminate.
Qed.

Lemma validate_items_raises bs e :
  validate_items bs = Raise e -> e = RequestValidationError.
Proof.
  induction bs as [|b bs IH]; cbn [validate_items]; [discriminate|].
  destruct (validate_item b) eqn:H1; run;
    [|intros H; injection H as <-; eapply validate_item_raises; eassumption].
  destruct (validate_items bs) eqn:H2; run; [discriminate|].
  intros H; injection H as <-. apply IH. reflexivity.
Qed.

(** A body that validates carries its three totals, each [>= 0]. *)
Lemma validate_order_ok b o :
  validate_order b = Ok o ->
  in_subtotal b = Some (subtotal o) /\ fge (subtotal o) fzero = true /\
  in_tax b = Some (tax o) /\ fge (tax o) fzero = true /\
  in_total b = Some (total o) /\ fge (total o) fzero = true.
Proof.
  unfold validate_order.
  destruct (required (in_items b)); run; [|discriminate].
  destruct (validate_items a); run; [|discriminate].
  destruct (required (in_shipping b)); run; [|discriminate].
  destruct (required_ge fzero (in_subtotal b)) as [st|] eqn:H1; run; [|discriminate].
  destruct (required_ge fzero (in_tax b)) as [tx|] eqn:H2; run; [|discriminate].
  destruct (required_ge fzero (in_total b)) as [tt|] eqn:H3; run; [|discriminate].
  intros H. injection H as <-. cbn [subtotal tax total].
  apply required_ge_ok in H1 as [-> ->], H2 as [-> ->], H3 as [-> ->].
  repeat split.
Qed.

Lemma validate_order_raises b e :
  validate_order b = Raise e -> e = RequestValidationError.
Proof.
  unfold validate_order.
  destruct (required (in_items b)) eqn:H0; run;
    [|intros H; injection H as <-; eapply required_raises; eassumption].
  destruct (validate_items a) eqn:H1; run;
    [|intros H; injection H as <-; eapply validate_items_raises; eassumption].
  destruct (required (in_shipping b)) eqn:H2; run;
    [|intros H; injection H as <-; eapply required_raises; eassumption].
  destruct (required_ge fzero (in_subtotal b)) eqn:H3; run;
    [|intros H; injection H as <-; eapply required_ge_raises; eassumption].
  destruct (required_ge fzero (in_tax b)) eqn:H4; run;
    [|intros H; injection H as <-; eapply required_ge_raises; eassumption].
  destruct (required_ge fzero (in_total b)) eqn:H5; run;
    [|intros H; injection H as <-; eapply required_ge_raises; eassumption].
  discriminate.
Qed.

Lemma negative_not_ge x : negative x = true -> fge x fzero = false.
Proof.
  unfold negative, flt, fge, SFltb, SFleb, fzero.
  destruct x as [[]|[]| |[] m e]; cbn; congruence.
Qed.

(** C10.  A body of [POST /orders] that lacks [subtotal], [tax] or
    [total], or gives one of them a negative value, is rejected by
    validation with status 422; the handler does not run, so no total is
    computed and the store is untouched. *)
Theorem order_body_needs_totals (v : sum_loop) (body : OrderBody) (w : world) :
  (in_subtotal body = None \/ in_tax body = None \/ in_total body = None \/
   exists x, negative x = true /\
     (in_subtotal body = Some x \/ in_tax body = Some x \/ in_total body = Some x)) ->
  validate_order body = Raise RequestValidationError /\
  post_orders v body w = (Raise RequestValidationError, w) /\
  failure_status (post_orders v body w).1 = Some 422.
Proof.
  intros Hbad.
  assert (Hv : validate_order body = Raise RequestValidationError).
  { destruct (validate_order body) as [o|e] eqn:Hv.
    - exfalso. apply validate_order_ok in Hv as (Hs & Hsg & Ht & Htg & Hu & Hug).
      destruct Hbad as [H|[H|[H|(x & Hneg & [H|[H|H]])]]];
        try congruence; apply negative_not_ge in Hneg; congruence.
    - f_equal. eapply validate_order_raises. exact Hv. }
  split; [exact Hv|].
  assert (Hp : post_orders v body w = (Raise RequestValidationError, w)).
  { unfold post_orders. rewrite Hv. reflexivity. }
  split; [exact Hp|]. rewrite Hp. reflexivity.
Qed.

(** *** Identifiers round-trip *)

Lemma hex_value_digit n : (n < 16)%N -> hex_value (hex_digit n) = Some n.
Proof.
  intros Hn. rewrite <- (N2Nat.id n).
  assert (Hk : (N.to_nat n < 16)%nat) by lia.
  generalize dependent (N.to_nat n). clear Hn n. intros k Hk.
  do 16 (destruct k as [|k]; [reflexivity|]). lia.
Qed.

Lemma parse_hex_hex_of k : forall n acc a,
  parse_hex (hex_of k n acc) a =
    parse_hex acc (a * 16 ^ N.of_nat k + n mod 16 ^ N.of_nat k)%N.
Proof.
  induction k as [|k IH]; intros n acc a.
  - cbn [hex_of]. change (16 ^ N.of_nat 0)%N with 1%N.
    rewrite N.mod_1_r, N.mul_1_r, N.add_0_r. reflexivity.
  - cbn [hex_of]. rewrite IH. cbn [parse_hex].
    rewrite hex_value_digit by (apply N.mod_lt; discriminate).
    f_equal. rewrite Nat2N.inj_succ, N.pow_succ_r'.
    rewrite (N.Div0.mod_mul_r n 16 (16 ^ N.of_nat k)). lia.
Qed.

Lemma length_hex_of k : forall n acc,
  String.length (hex_of k n acc) = (k + String.length acc)%nat.
Proof.
  induction k as [|k IH]; intros n acc; cbn [hex_of]; [reflexivity|].
  rewrite IH. cbn [String.length]. lia.
Qed.

(** The string the store hands out for an identifier reads back as that
    identifier. *)
Lemma ObjectId_str_oid (o : ObjectId_t) :
  (o < 2 ^ 96)%N -> ObjectId (str_oid o) = Some o.
Proof.
  intros Ho. unfold ObjectId, str_oid.
  rewrite length_hex_of. cbn [String.length Nat.add Nat.eqb].
  rewrite parse_hex_hex_of. cbn [parse_hex].
  change (16 ^ N.of_nat 24)%N with (2 ^ 96)%N.
  rewrite N.mod_small by exact Ho. reflexivity.
Qed.

(** Asking for the identifier of a stored product returns a product with
    that identifier. *)
Lemma get_product_by_stored_id (d : Database) (doc : document) (oid : ObjectId_t) :
  In doc (collection d "product") -> _id doc = Some oid -> (oid < 2 ^ 96)%N ->
  exists doc',
    In doc' (collection d "product") /\ _id doc' = Some oid /\
    get_product (str_oid oid) (Some d) = (Ok (serialize_doc doc'), Some d).
Proof.
  intros Hin Hid Ho. unfold get_product. run.
  rewrite (ObjectId_str_oid oid Ho).
  destruct (find_one (collection d "product") oid) as [doc'|] eqn:Hf.
  - apply find_one_some in Hf as [Hin' Hid']. eauto.
  - exfalso. apply find_one_none in Hf.
    rewrite List.Forall_forall in Hf. exact (Hf doc Hin Hid).
Qed.

(** *** Instances *)

Lemma two_items_ok : Forall item_ok two_items.
Proof. repeat constructor. Qed.

(** C1 at the order of the worked example. *)
Lemma totals_from_unrounded_subtotal_witness :
  Forall item_ok (items order_a) /\
  exists xs s sub tax total,
    Forall2 line_amount (items order_a) xs /\
    s = py_sum Plain xs /\
    (xs <> [] -> py_sum Plain xs = NFloat (fold_left fadd xs fzero)) /\
    unrounded_subtotal Plain (items order_a) = Ok s /\
    (t ← py_mul s tax_rate; round2 t) = Ok tax /\
    (u ← py_add s tax; round2 u) = Ok total /\
    round2 s = Ok sub /\
    order_totals Plain (items order_a) = Ok (sub, tax, total) /\
    returned_and_stored (create_order Plain order_a (Some empty_db)) empty_db
      (entries_of sub tax total).
Proof.
  split; [exact two_items_ok|].
  apply (proj2 (totals_from_unrounded_subtotal Plain order_a empty_db)).
  exact two_items_ok.
Defined.

(** C2 at two bodies that differ in every client-supplied field but the
    items, against different stores. *)
Lemma totals_depend_on_items_only_witness :
  validate_order body_a = Ok order_a /\
  validate_order body_b = Ok order_b /\
  in_items body_a = in_items body_b /\
  items order_a = items order_b /\
  match order_totals Compensated (items order_a) with
  | Ok (sub, tax, total) =>
      returned_and_stored (post_orders Compensated body_a (Some empty_db))
        empty_db (entries_of sub tax total) /\
      returned_and_stored (post_orders Compensated body_b (Some (seeded empty_db)))
        (seeded empty_db) (entries_of sub tax total)
  | Raise e =>
      post_orders Compensated body_a (Some empty_db) = (Raise e, Some empty_db) /\
      post_orders Compensated body_b (Some (seeded empty_db)) =
        (Raise e, Some (seeded empty_db))
  end.
Proof.
  split; [reflexivity|]. split; [reflexivity|]. split; [reflexivity|].
  apply (totals_depend_on_items_only Compensated body_a body_b order_a order_b
           empty_db (seeded empty_db)); reflexivity.
Defined.

(** C3, amended, at the order of the worked example, where rounding
    leaves the subtotal 52.48 unchanged. *)
Lemma tax_and_total_from_unrounded_witness :
  Forall item_ok (items order_a) /\
  exists r w',
    create_order Plain order_a (Some empty_db) = (Ok r, w') /\
    exists s sub tax total,
      unrounded_subtotal Plain (items order_a) = Ok s /\
      round2 s = Ok sub /\
      (t ← py_mul s tax_rate; round2 t) = Ok tax /\
      (u ← py_add s tax; round2 u) = Ok total /\
      computed_entries r = entries_of sub tax total /\
      (sub = s -> derived_from_rounded sub tax total).
Proof.
  split; [exact two_items_ok|].
  destruct (proj2 (tax_and_total_from_unrounded Plain order_a empty_db) two_items_ok)
    as (r & w' & Hrun).
  exists r, w'. split; [exact Hrun|].
  apply (proj1 (tax_and_total_from_unrounded Plain order_a empty_db) r).
  rewrite Hrun. reflexivity.
Defined.

(** C6 at a body that validates. *)
Lemma unavailable_database_is_500_witness :
  validate_order valid_body = Ok (order_of [] fzero fzero fzero "pending") /\
  failure_status (post_orders Plain valid_body None).1 = Some 500 /\
  (post_orders Plain valid_body None).2 = None.
Proof.
  split; [reflexivity|].
  apply (proj2 (proj2 (proj2 (proj2 unavailable_database_is_500)))
           Plain valid_body (order_of [] fzero fzero fzero "pending")).
  reflexivity.
Defined.

(** C9, amended, at a category no seeded product has. *)
Lemma list_products_by_category_witness :
  "Toys" <> "" /\
  Forall (fun doc => has_category "Toys" doc = false)
    (collection (seeded empty_db) "product") /\
  list_products (Some "Toys") (Some (seeded empty_db)) =
    (Ok [], Some (seeded empty_db)).
Proof.
  assert (Hne : "Toys" <> "") by discriminate.
  assert (Hnone : Forall (fun doc => has_category "Toys" doc = false)
                    (collection (seeded empty_db) "product")).
  { vm_compute. repeat constructor. }
  split; [exact Hne|]. split; [exact Hnone|].
  exact (proj2 (list_products_by_category (seeded empty_db) (Some "Toys"))
           "Toys" eq_refl Hne Hnone).
Defined.

(** C10 at a body with a negative subtotal. *)
Lemma order_body_needs_totals_witness :
  negative (dec (-550) 2) = true /\
  in_subtotal negative_body = Some (dec (-550) 2) /\
  validate_order negative_body = Raise RequestValidationError /\
  post_orders Plain negative_body (Some empty_db) =
    (Raise RequestValidationError, Some empty_db) /\
  failure_status (post_orders Plain negative_body (Some empty_db)).1 = Some 422.
Proof.
  split; [reflexivity|]. split; [reflexivity|].
  apply (order_body_needs_totals Plain negative_body (Some empty_db)).
  right. right. right. exists (dec (-550) 2).
  split; [reflexivity|]. left. reflexivity.
Defined.

(* ===================================================================== *)
(** ** Further properties of the handlers                                 *)
(* ===================================================================== *)

Import Diagnostics Facts Cases.

(** *** The diagnostic route *)

(** X1.  [GET /test] without a database: the reply says "Available but
    not initialized" and "Not Connected", lists no collection, and leaves
    [database_url] and [database_name] null, whatever [DATABASE_URL] holds.
    With or without a database, the text "Not Available" that the reply
    starts with is always overwritten. *)
Theorem test_database_without_db (p : Probe) (w : world) :
  test_database p None !! "database" =
    Some (VStr "⚠️  Available but not initialized") /\
  test_database p None !! "connection_status" = Some (VStr "Not Connected") /\
  test_database p None !! "database_url" = Some VNone /\
  test_database p None !! "database_name" = Some VNone /\
  test_database p None !! "collections" = Some (VList []) /\
  test_database p w !! "backend" = Some (VStr "✅ Running") /\
  test_database p w !! "database" <> Some (VStr "❌ Not Available").
Proof.
  repeat (split; [reflexivity|]).
  split.
  - destruct w; cbn [test_database]; [destruct (list_collection_names p)|];
      repeat (rewrite lookup_insert_ne by discriminate); apply lookup_insert_eq.
  - destruct w; cbn [test_database]; [destruct (list_collection_names p)|];
      repeat (rewrite lookup_insert_ne by discriminate);
      rewrite lookup_insert_eq; intros H; vm_compute in H; discriminate H.
Qed.

(** X2.  [GET /test] with a database reports "Connected" even when
    listing the collections fails.  When the listing succeeds, the reply
    carries the first ten names in the order the driver gave them, all of
    them when there are at most ten; when it fails, it carries no name,
    and the database text ends with the first 50 characters of the error
    message, the whole message when it has at most 50. *)
Theorem test_database_with_db (p : Probe) (d : Database) :
  let r := test_database p (Some d) in
  r !! "connection_status" = Some (VStr "Connected") /\
  r !! "database_name" = Some (VStr (default "✅ Connected" (name_attr p))) /\
  match list_collection_names p with
  | inr names =>
      r !! "database" = Some (VStr "✅ Connected & Working") /\
      exists shown,
        r !! "collections" = Some (VList (map VStr shown)) /\
        length shown = Nat.min 10 (length names) /\
        (exists rest, names = shown ++ rest) /\
        ((length names <= 10)%nat -> shown = names)
  | inl m =>
      r !! "collections" = Some (VList []) /\
      exists t,
        r !! "database" = Some (VStr ("⚠️  Connected but Error: " ++ text t)) /\
        length t = Nat.min 50 (length m) /\
        (exists rest, m = t ++ rest) /\
        ((length m <= 50)%nat -> t = m)
  end.
Proof.
  intros r. subst r. cbn [test_database].
  destruct (list_collection_names p) as [m|names].
  - split; [reflexivity|]. split; [reflexivity|]. split; [reflexivity|].
    exists (firstn 50 m). split; [reflexivity|].
    split; [apply length_firstn|].
    split; [exists (skipn 50 m); symmetry; apply firstn_skipn|].
    intros H. apply firstn_all2. exact H.
  - split; [reflexivity|]. split; [reflexivity|]. split; [reflexivity|].
    exists (firstn 10 names). split; [reflexivity|].
    split; [apply length_firstn|].
    split; [exists (skipn 10 names); symmetry; apply firstn_skipn|].
    intros H. apply firstn_all2. exact H.
Qed.

(** *** Validation *)

Lemma required_ge_iff b o x :
  required_ge b o = Ok x <-> o = Some x /\ fge x b = true.
Proof.
  split; [apply required_ge_ok|].
  intros [-> H]. unfold required_ge. cbn [required]. run. rewrite H. reflexivity.
Qed.

Lemma required_ge_int_iff b o x :
  required_ge_int b o = Ok x <-> o = Some x /\ b <= x.
Proof.
  unfold required_ge_int. split.
  - destruct o as [y|]; cbn [required]; run; [|discriminate].
    destruct (b <=? y) eqn:Hy; [|discriminate].
    intros H. injection H as <-. apply Z.leb_le in Hy. auto.
  - intros [-> H]. cbn [required]. run.
    apply Z.leb_le in H. rewrite H. reflexivity.
Qed.

Lemma validate_item_iff ib i :
  validate_item ib = Ok i <-> item_with ge0 ib i.
Proof.
  unfold validate_item, item_with, ge0. split.
  - destruct (in_product_id ib) as [pid|]; cbn [required]; run; [|discriminate].
    destruct (in_title ib) as [t|]; cbn [required]; run; [|discriminate].
    destruct (required_ge fzero (in_price ib)) as [p|] eqn:Hp; run; [|discriminate].
    destruct (required_ge_int 1 (in_quantity ib)) as [q|] eqn:Hq; run; [|discriminate].
    intros H. injection H as <-. cbn [product_id title price quantity].
    apply required_ge_iff in Hp as [-> Hp]. apply required_ge_int_iff in Hq as [-> Hq].
    repeat split; assumption.
  - intros (-> & -> & Hp & Hpge & Hq & Hqge). cbn [required]. run.
    rewrite (proj2 (required_ge_iff fzero _ _) (conj Hp Hpge)).
    rewrite (proj2 (required_ge_int_iff 1 _ _) (conj Hq Hqge)).
    destruct i; reflexivity.
Qed.

Lemma validate_items_iff ibs : forall its,
  validate_items ibs = Ok its <-> Forall2 (item_with ge0) ibs its.
Proof.
  induction ibs as [|ib ibs IH]; intros its; cbn [validate_items].
  - split.
    + intros H. injection H as <-. constructor.
    + intros H. inversion H. reflexivity.
  - split.
    + destruct (validate_item ib) as [i|] eqn:Hi; run; [|discriminate].
      destruct (validate_items ibs) as [is'|] eqn:His; run; [|discriminate].
      intros H. injection H as <-. constructor.
      * apply validate_item_iff. exact Hi.
      * apply IH. reflexivity.
    + intros H. inversion H as [|? i ? is' Hi His]; subst.
      apply validate_item_iff in Hi. apply IH in His.
      rewrite Hi. run. rewrite His. reflexivity.
Qed.





Lemma item_accepted_not_rejected ib i :
  item_with ge0 ib i -> ~ item_rejected ib.
Proof.
  intros (Hpid & Ht & Hp & Hpge & Hq & Hqge) Hrej.
  destruct Hrej as [H|[H|[H|[H|[(p & H & Hneg)|(q & H & Hlt)]]]]];
    try congruence.
  - apply negative_not_ge in Hneg. congruence.
  - assert (q = quantity i) by congruence. lia.
Qed.

(** X4.  One bad item spoils the order: when any item of the body lacks a
    field, has a negative price, or has a quantity of zero or less, the
    whole request is rejected with status 422, whatever the other items
    are, and nothing is stored. *)
Theorem one_bad_item_rejects_order (v : sum_loop) (b : OrderBody)
    (ibs : list OrderItemBody) (w : world) :
  in_items b = Some ibs -> Exists item_rejected ibs ->
  post_orders v b w = (Raise RequestValidationError, w) /\
  failure_status (post_orders v b w).1 = Some 422.
Proof.
  intros Hb Hex.
  assert (Hv : validate_order b = Raise RequestValidationError).
  { destruct (validate_order b) as [o|e] eqn:Hv.
    - exfalso. destruct (validate_order_items b o Hv) as (ibs' & Hb' & Hits).
      apply validate_items_iff in Hits.
      rewrite Hb in Hb'. injection Hb' as <-.
      clear Hb. induction Hits as [|ib i ibs' its Hi _ IH].
      + inversion Hex.
      + inversion Hex as [? ? Hrej|? ? Hrest]; subst.
        * exact (item_accepted_not_rejected _ _ Hi Hrej).
        * exact (IH Hrest).
    - f_equal. eapply validate_order_raises. exact Hv. }
  assert (Hp : post_orders v b w = (Raise RequestValidationError, w)).
  { unfold post_orders. rewrite Hv. reflexivity. }
  split; [exact Hp|]. rewrite Hp. reflexivity.
Qed.

(** *** Malformed identifiers *)

Lemma parse_hex_all_hex s : forall acc,
  parse_hex s acc = None <-> all_hex s = false.
Proof.
  induction s as [|c s IH]; intros acc; cbn [parse_hex all_hex].
  - split; discriminate.
  - unfold is_hex. destruct (hex_value c) as [dg|]; cbn [andb].
    + apply IH.
    + split; reflexivity.
Qed.

Lemma has_foreign_not_hex s : has_foreign s = true -> all_hex s = false.
Proof.
  induction s as [|c s IH]; cbn [has_foreign all_hex]; [discriminate|].
  destruct (is_hex c); cbn [negb andb orb]; [exact IH|reflexivity].
Qed.

(** X5.  Which identifiers [GET /products/{id}] refuses.  A string that
    is not 24 characters long, the empty one included, gets a 400, and so
    does one with a character that is neither a hexadecimal digit nor
    white space; in both cases the collection is not searched, so this
    holds whatever it contains.  A string of 24 hexadecimal digits, in
    either case, never gets a 400: it is looked up, and the answer is the
    product or a 404. *)
Theorem get_product_400 (d : Database) (product_id : string) :
  (String.length product_id <> 24%nat \/ has_foreign product_id = true ->
   get_product product_id (Some d) =
     (Raise (HTTPException 400 "Invalid product id"), Some d)) /\
  (String.length product_id = 24%nat /\ all_hex product_id = true ->
   get_product product_id (Some d) =
     (Raise (HTTPException 404 "Product not found"), Some d) \/
   exists doc, In doc (collection d "product") /\
     get_product product_id (Some d) = (Ok (serialize_doc doc), Some d)).
Proof.
  unfold get_product. run. unfold ObjectId. split.
  - intros [Hlen|Hf].
    + apply Nat.eqb_neq in Hlen. rewrite Hlen. reflexivity.
    + destruct (String.length product_id =? 24)%nat; [|reflexivity].
      apply has_foreign_not_hex, (parse_hex_all_hex _ 0%N) in Hf.
      rewrite Hf. reflexivity.
  - intros [Hlen Hhex]. rewrite Hlen. cbn [Nat.eqb].
    destruct (parse_hex product_id 0) as [oid|] eqn:Hp.
    + destruct (find_one (collection d "product") oid) as [doc|] eqn:Hfind.
      * right. exists doc. split; [|reflexivity].
        apply find_one_some in Hfind as [Hin _]. exact Hin.
      * left. reflexivity.
    + apply parse_hex_all_hex in Hp. congruence.
Qed.

(** *** Serialized documents and their identifiers *)

Lemma list_products_run d category :
  list_products category (Some d) =
    (Ok (map serialize_doc
           (if truthy category
            then List.filter (has_category (default "" category)) (collection d "product")
            else collection d "product")),
     Some d).
Proof.
  unfold list_products, get_documents. run.
  destruct (truthy category) eqn:Ht.
  - destruct category as [c|]; [|discriminate Ht]. cbn [of_optional_str default].
    rewrite (filter_ext _ _ _ (matches_category c)). reflexivity.
  - rewrite (filter_all _ _ matches_empty). reflexivity.
Qed.

Lemma collection_inserted_other d name name' data :
  name <> name' ->
  collection (inserted d name data) name' = collection d name'.
Proof.
  intros Hne. unfold collection, inserted. cbn [collections].
  rewrite lookup_insert_ne by exact Hne. reflexivity.
Qed.

Lemma same_id_same_doc (c : list document) (x y : document) :
  NoDup (map _id c) -> In x c -> In y c -> _id x = _id y -> x = y.
Proof.
  induction c as [|z c IH]; cbn [map]; intros Hnd Hx Hy Heq; [contradiction|].
  apply NoDup_cons in Hnd as [Hz Hnd].
  assert (Hmem : forall u, In u c -> _id u <> _id z).
  { intros u Hu Hsame. apply Hz. rewrite <- Hsame.
    apply list_elem_of_In. apply in_map. exact Hu. }
  destruct Hx as [<-|Hx], Hy as [<-|Hy].
  - reflexivity.
  - exfalso. exact (Hmem _ Hy (eq_sym Heq)).
  - exfalso. exact (Hmem _ Hx Heq).
  - apply IH; assumption.
Qed.

Lemma length_str_oid o : String.length (str_oid o) = 24%nat.
Proof. unfold str_oid. rewrite length_hex_of. reflexivity. Qed.

(** X6.  [serialize_doc] replaces the identifier of a document by its
    24-digit hexadecimal text under ["id"]: every other entry is kept, an
    ["id"] entry the document already had is overwritten, and the text
    reads back, with [ObjectId], as the identifier it came from.  A
    document without identifier is returned as it is. *)
Theorem serialize_doc_entries (doc : document) :
  (forall k, k <> "id" -> serialize_doc doc !! k = fields doc !! k) /\
  match _id doc with
  | Some o =>
      serialize_doc doc !! "id" = Some (VStr (str_oid o)) /\
      String.length (str_oid o) = 24%nat /\
      ((o < 2 ^ 96)%N -> ObjectId (str_oid o) = _id doc)
  | None => serialize_doc doc = fields doc
  end.
Proof.
  unfold serialize_doc. destruct (_id doc) as [o|].
  - split; [intros k Hk; apply lookup_insert_ne; congruence|].
    split; [apply lookup_insert_eq|]. split; [apply length_str_oid|].
    apply ObjectId_str_oid.
  - split; reflexivity.
Qed.

(** X7.  Listing and fetching agree.  When the products carry distinct
    12-byte identifiers, as the store keeps them, every dict that
    [GET /products] returns, under any category, has a 24-character
    ["id"], and [GET /products/{id}] with that text returns exactly the
    same dict. *)
Theorem listed_product_can_be_fetched (d : Database) (category : option string) :
  ids_ok (collection d "product") ->
  exists rs,
    list_products category (Some d) = (Ok rs, Some d) /\
    Forall (fun r =>
              exists s, r !! "id" = Some (VStr s) /\
                        String.length s = 24%nat /\
                        get_product s (Some d) = (Ok r, Some d)) rs.
Proof.
  intros [Hnd Hids]. rewrite list_products_run. eexists. split; [reflexivity|].
  apply List.Forall_forall. intros r Hr.
  apply in_map_iff in Hr as (doc & <- & Hdoc).
  assert (Hin : In doc (collection d "product")).
  { destruct (truthy category); [|exact Hdoc].
    apply filter_In in Hdoc as [Hdoc _]. exact Hdoc. }
  rewrite List.Forall_forall in Hids.
  destruct (Hids doc Hin) as (o & Ho & Hlt).
  exists (str_oid o). split.
  { unfold serialize_doc. rewrite Ho. apply lookup_insert_eq. }
  split; [apply length_str_oid|].
  destruct (get_product_by_stored_id d doc o Hin Ho Hlt) as (doc' & Hin' & Ho' & Hget).
  rewrite Hget. do 3 f_equal.
  apply (same_id_same_doc _ _ _ Hnd Hin' Hin). congruence.
Qed.

(** *** What the handlers leave alone *)

(** X8.  [POST /orders] never touches the products, whether it succeeds or
    raises: the product collection is the same afterwards, so listing and
    fetching products give the same answers as before.  The order
    collection only grows at its end, by at most one document. *)
Theorem create_order_leaves_products (v : sum_loop) (order : Order)
    (d : Database) :
  let w' := (create_order v order (Some d)).2 in
  stored w' "product" = Some (collection d "product") /\
  (forall category,
     (list_products category w').1 = (list_products category (Some d)).1) /\
  (forall product_id,
     (get_product product_id w').1 = (get_product product_id (Some d)).1) /\
  exists new,
    stored w' "order" = Some (collection d "order" ++ new) /\
    (length new <= 1)%nat.
Proof.
  intros w'. subst w'. rewrite create_order_run.
  destruct (order_totals v (items order)) as [[[sub tax] total]|e]; cbn [snd].
  - assert (Hc : collection (inserted d "order"
                   (update (model_dump order) (computed sub tax total))) "product"
                 = collection d "product")
      by (apply collection_inserted_other; discriminate).
    split; [unfold stored; cbn [fmap option_fmap option_map]; rewrite Hc; reflexivity|].
    split; [intros category; rewrite !list_products_run, Hc; reflexivity|].
    split.
    { intros pid. unfold get_product. run. rewrite Hc.
      destruct (ObjectId pid); [|reflexivity].
      destruct (find_one (collection d "product") o); reflexivity. }
    eexists. split; [apply stored_inserted|]. cbn [length]. lia.
  - split; [reflexivity|]. split; [reflexivity|]. split; [reflexivity|].
    exists []. split; [cbn; rewrite app_nil_r; reflexivity|]. cbn [length]. lia.
Qed.

Lemma collection_seeded_other d name :
  name <> "product" -> collection (seeded d) name = collection d name.
Proof.
  intros Hne. unfold seeded, samples. cbn [fold_left].
  rewrite !collection_inserted_other by congruence. reflexivity.
Qed.

(** X9.  [POST /seed] never touches the orders, and what it reports is
    what a listing shows: after the call, on any configured store, the
    order collection is unchanged, [GET /products] without category is not
    empty, and the count of the reply is the number of products it
    returns. *)
Theorem seed_products_count_is_listing (d : Database) :
  exists r w' rs,
    seed_products (Some d) = (Ok r, w') /\
    stored w' "order" = Some (collection d "order") /\
    list_products None w' = (Ok rs, w') /\
    r !! "count" = Some (VInt (Z.of_nat (length rs))) /\
    rs <> [].
Proof.
  destruct (collection d "product") as [|doc docs] eqn:Hc.
  - rewrite (seed_products_empty d Hc).
    eexists _, _, _. split; [reflexivity|].
    split; [unfold stored; cbn [fmap option_fmap option_map];
            rewrite collection_seeded_other by discriminate; reflexivity|].
    split; [apply list_products_run|]. cbn [truthy].
    pose proof (f_equal length (collection_seeded d)) as Hlen.
    rewrite Hc, length_map in Hlen. cbn [map length app samples] in Hlen.
    rewrite length_map, Hlen. split; [reflexivity|].
    intros Hnil. apply (f_equal length) in Hnil.
    rewrite length_map, Hlen in Hnil. discriminate Hnil.
  - assert (Hne : collection d "product" <> []) by (rewrite Hc; discriminate).
    rewrite (seed_products_nonempty d Hne).
    eexists _, _, _. split; [reflexivity|]. split; [reflexivity|].
    split; [apply list_products_run|]. cbn [truthy].
    rewrite length_map. split.
    + unfold already_reply. rewrite lookup_insert_ne by discriminate.
      apply lookup_insert_eq.
    + rewrite Hc. discriminate.
Qed.

(** *** What an order stores *)

(** X10.  A successful [POST /orders] appends one document to the orders.
    The document carries the items and the shipping data of the request
    as [model_dump] renders them; the response has exactly the keys [id],
    [subtotal], [tax], [total] and [status], and its [id] is the text of
    the identifier the store gave to the document. *)
Theorem create_order_stores_request (v : sum_loop) (order : Order)
    (d : Database) (r : dict) (w' : world) :
  create_order v order (Some d) = (Ok r, w') ->
  exists doc,
    stored w' "order" = Some (collection d "order" ++ [doc]) /\
    _id doc = Some (next_oid d) /\
    r !! "id" = Some (VStr (str_oid (next_oid d))) /\
    fields doc !! "items" = Some (VList (map dump_item (items order))) /\
    fields doc !! "shipping" = Some (dump_shipping (shipping order)) /\
    dom r = ({[ "id"; "subtotal"; "tax"; "total"; "status" ]} : gset string).
Proof.
  rewrite create_order_run.
  destruct (order_totals v (items order)) as [[[sub tax] total]|e];
    [|discriminate].
  intros H. injection H as <- <-.
  eexists. split; [apply stored_inserted|]. cbn [_id fields].
  split; [reflexivity|]. split; [apply lookup_insert_eq|].
  unfold update, computed, model_dump.
  split.
  { rewrite lookup_union_r by
      (repeat (rewrite lookup_insert_ne by discriminate); apply lookup_empty).
    apply lookup_insert_eq. }
  split.
  { rewrite lookup_union_r by
      (repeat (rewrite lookup_insert_ne by discriminate); apply lookup_empty).
    rewrite lookup_insert_ne by discriminate. apply lookup_insert_eq. }
  rewrite !dom_insert_L, dom_empty_L. set_solver.
Qed.

(** *** Quantities too large for a double *)

Lemma binary_round_overflow s p :
  2 ^ 1024 <= Zpos p -> binary_round prec emax s p 0 = S754_infinity s.
Proof.
  intros Hp. unfold binary_round.
  assert (Hd : 1025 <= Zdigits2 (Zpos p)) by (apply (Zdigits2_ge_pow _ 1024); lia).
  destruct (shl_align_spec p 0 (fexp prec emax (Zpos (digits2_pos p) + 0)))
    as (mz & ez & -> & Hez & Hmz).
  change (Zpos (digits2_pos p)) with (Zdigits2 (Zpos p)) in Hez.
  rewrite fexp_eq in Hez.
  assert (Hz : ez = 0) by lia. clear Hez. subst ez.
  assert (mz = p) by (change (2 ^ (0 - 0)) with 1 in Hmz; lia). subst mz.
  destruct (binary_round_aux_cases s (Zpos p) 0 loc_Exact ltac:(lia))
    as (m1 & m2 & e1 & e2 & He1 & Hm1 & He2 & Hm2 & ->).
  rewrite fexp_eq in He1, He2.
  assert (He1' : e1 = Zdigits2 (Zpos p) - 53) by lia.
  assert (Hpow : 0 < 2 ^ (e1 - 0)) by (apply Z.pow_pos_nonneg; lia).
  assert (Hq : 0 <= Zpos p / 2 ^ (e1 - 0)) by (apply Z.div_pos; lia).
  pose proof (Zdigits2_div_pow2 (Zpos p) (e1 - 0) ltac:(lia) ltac:(lia)) as Ha.
  pose proof (Zdigits2_succ _ Hq) as Hs.
  assert (Hm1' : 0 <= m1) by (destruct Hm1; lia).
  assert (Hb : 53 <= Zdigits2 m1 <= 54) by (destruct Hm1 as [-> | ->]; lia).
  pose proof (Zdigits2_div_pow2 m1 (e2 - e1) Hm1' ltac:(lia)) as Hc.
  rewrite <- Hm2 in Hc.
  assert (Hm2d : Zdigits2 m2 = 53) by lia.
  assert (Hm2' : 0 <= m2).
  { rewrite Hm2. apply Z.div_pos; [lia|]. apply Z.pow_pos_nonneg; lia. }
  destruct m2 as [|m|m]; [discriminate Hm2d| |lia].
  replace (e2 <=? emax - prec) with false; [reflexivity|].
  symmetry. apply Z.leb_gt. unfold emax, prec. lia.
Qed.

Lemma PyLong_AsDouble_overflow z :
  2 ^ 1024 <= Z.abs z ->
  PyLong_AsDouble z = Raise (OverflowError "int too large to convert to float").
Proof.
  intros Hz. unfold PyLong_AsDouble.
  destruct z as [|p|p]; cbn [binary_normalize].
  - exfalso. change (Z.abs 0) with 0 in Hz.
    assert (0 < 2 ^ 1024) by (apply Z.pow_pos_nonneg; lia). lia.
  - rewrite binary_round_overflow by exact Hz. reflexivity.
  - rewrite binary_round_overflow by exact Hz. reflexivity.
Qed.

Lemma amounts_raises its e :
  amounts its = Raise e -> e = OverflowError "int too large to convert to float".
Proof.
  induction its as [|item its IH]; cbn [amounts]; [discriminate|].
  unfold float_mul, to_double, PyLong_AsDouble.
  destruct (binary_normalize prec emax (quantity item) 0 false); run;
    try (intros H; injection H as <-; reflexivity);
    (destruct (amounts its) as [rest|e']; run;
       [discriminate | intros H; injection H as <-; apply IH; reflexivity]).
Qed.

Lemma amounts_overflow its :
  Exists (fun i => 2 ^ 1024 <= Z.abs (quantity i)) its ->
  amounts its = Raise (OverflowError "int too large to convert to float").
Proof.
  induction 1 as [item its Hq|item its _ IH]; cbn [amounts].
  - unfold float_mul, to_double. rewrite (PyLong_AsDouble_overflow _ Hq). reflexivity.
  - destruct (float_mul (price item) (NInt (quantity item))) as [a|e] eqn:Ha; run.
    + rewrite IH. reflexivity.
    + f_equal. apply (amounts_raises [item]). cbn [amounts]. rewrite Ha. reflexivity.
Qed.

(** X11.  A quantity of [2^1024] or more does not convert to a double:
    whatever the prices and the other items,
    [create_order] raises [OverflowError] from the product
    [price * quantity], the request ends with status 500, and no order is
    stored. *)
Theorem huge_quantity_overflows (v : sum_loop) (order : Order) (d : Database) :
  Exists (fun i => 2 ^ 1024 <= Z.abs (quantity i)) (items order) ->
  create_order v order (Some d) =
    (Raise (OverflowError "int too large to convert to float"), Some d) /\
  failure_status (create_order v order (Some d)).1 = Some 500.
Proof.
  intros Hq.
  assert (Hrun : create_order v order (Some d) =
    (Raise (OverflowError "int too large to convert to float"), Some d)).
  { unfold create_order. rewrite (amounts_overflow _ Hq). reflexivity. }
  rewrite Hrun. split; reflexivity.
Qed.

(** *** Failures and the store *)


(** X13.  The two [GET] handlers only read: whatever the parameters and
    whether the database is configured or not, they leave the store as
    it is; and on a configured database a listing never fails. *)
Theorem get_handlers_only_read (w : world) (d : Database) :
  (forall category, (list_products category w).2 = w) /\
  (forall product_id, (get_product product_id w).2 = w) /\
  (forall category,
     exists rs, (list_products category (Some d)).1 = Ok rs /\
                (length rs <= length (collection d "product"))%nat).
Proof.
  split; [|split].
  - intros category. destruct w as [d'|].
    + rewrite list_products_run. reflexivity.
    + reflexivity.
  - intros pid. destruct w as [d'|]; [|reflexivity].
    unfold get_product. run.
    destruct (ObjectId pid); [|reflexivity].
    destruct (find_one (collection d' "product") o); reflexivity.
  - intros category. rewrite list_products_run. eexists.
    split; [reflexivity|]. rewrite length_map.
    destruct (truthy category); [apply filter_length_le|lia].
Qed.

(** *** Signs *)

Lemma fge_zero x :
  fge x fzero =
    match x with
    | S754_zero _ => true
    | S754_infinity s | S754_finite s _ _ => negb s
    | S754_nan => false
    end.
Proof. destruct x as [s|s| |s m e]; try destruct s; reflexivity. Qed.

(** Rounding keeps the sign and yields no NaN. *)
Lemma binary_round_aux_sign s mx ex lx :
  0 <= mx ->
  binary_round_aux prec emax s mx ex lx = S754_zero s \/
  binary_round_aux prec emax s mx ex lx = S754_infinity s \/
  exists m e, binary_round_aux prec emax s mx ex lx = S754_finite s m e.
Proof.
  intros Hmx.
  destruct (binary_round_aux_cases s mx ex lx Hmx)
    as (m1 & m2 & e1 & e2 & He1 & Hm1 & He2 & Hm2 & ->).
  destruct m2 as [|m|m]; [left; reflexivity| |].
  - destruct (e2 <=? emax - prec); eauto.
  - exfalso.
    assert (Hpow : 0 < 2 ^ (e1 - ex)) by (apply Z.pow_pos_nonneg; lia).
    assert (Hq : 0 <= mx / 2 ^ (e1 - ex)) by (apply Z.div_pos; lia).
    assert (Hm1' : 0 <= m1) by (destruct Hm1; lia).
    assert (0 <= m1 / 2 ^ (e2 - e1)).
    { apply Z.div_pos; [lia|]. apply Z.pow_pos_nonneg; lia. }
    lia.
Qed.

Lemma binary_round_aux_nonneg mx ex lx :
  0 <= mx -> fge (binary_round_aux prec emax false mx ex lx) fzero = true.
Proof.
  intros Hmx. rewrite fge_zero.
  destruct (binary_round_aux_sign false mx ex lx Hmx) as [-> | [-> | (m & e & ->)]];
    reflexivity.
Qed.

Lemma binary_normalize_nonneg m e :
  0 <= m -> fge (binary_normalize prec emax m e false) fzero = true.
Proof.
  intros Hm. destruct m as [|p|p]; cbn [binary_normalize]; [reflexivity| |lia].
  unfold binary_round.
  destruct (shl_align p e (fexp prec emax (Zpos (digits2_pos p) + e))) as [mz ez].
  apply binary_round_aux_nonneg. lia.
Qed.

Lemma fadd_nonneg x y :
  fge x fzero = true -> fge y fzero = true -> fge (fadd x y) fzero = true.
Proof.
  rewrite !fge_zero. intros Hx Hy. rewrite <- fge_zero. unfold fadd, SFadd.
  destruct x as [sx|sx| |sx mx ex], y as [sy|sy| |sy my ey];
    try discriminate Hx; try discriminate Hy;
    try (destruct sx; [discriminate Hx|]); try (destruct sy; [discriminate Hy|]);
    try (apply binary_normalize_nonneg; cbn [cond_Zopp]; lia);
    try (destruct sx); try (destruct sy); reflexivity.
Qed.

(** A positive int converts to a positive double. *)
Lemma binary_round_positive s p :
  binary_round prec emax s p 0 = S754_infinity s \/
  exists m e, binary_round prec emax s p 0 = S754_finite s m e.
Proof.
  unfold binary_round.
  destruct (shl_align_spec p 0 (fexp prec emax (Zpos (digits2_pos p) + 0)))
    as (mz & ez & -> & Hez & Hmz).
  change (Zpos (digits2_pos p)) with (Zdigits2 (Zpos p)) in Hez.
  pose proof (Zdigits2_pos (Zpos p) ltac:(lia)) as Hdp.
  assert (Hdz : Zdigits2 (Zpos mz) = Zdigits2 (Zpos p) - ez).
  { rewrite Hmz, Zdigits2_mul_pow2 by lia. lia. }
  destruct (binary_round_aux_cases s (Zpos mz) ez loc_Exact ltac:(lia))
    as (m1 & m2 & e1 & e2 & He1 & Hm1 & He2 & Hm2 & ->).
  rewrite fexp_eq in *.
  assert (Hpow : 0 < 2 ^ (e1 - ez)) by (apply Z.pow_pos_nonneg; lia).
  assert (Hq : 0 <= Zpos mz / 2 ^ (e1 - ez)) by (apply Z.div_pos; lia).
  pose proof (Zdigits2_div_pow2 (Zpos mz) (e1 - ez) ltac:(lia) ltac:(lia)) as Ha.
  pose proof (Zdigits2_succ _ Hq) as Hs.
  assert (Hm1' : 0 <= m1) by (destruct Hm1; lia).
  assert (Hb : 53 <= Zdigits2 m1 <= 54) by (destruct Hm1 as [-> | ->]; lia).
  pose proof (Zdigits2_div_pow2 m1 (e2 - e1) Hm1' ltac:(lia)) as Hc.
  rewrite <- Hm2 in Hc.
  assert (Hm2d : Zdigits2 m2 = 53) by lia.
  assert (Hm2' : 0 <= m2).
  { rewrite Hm2. apply Z.div_pos; [lia|]. apply Z.pow_pos_nonneg; lia. }
  destruct m2 as [|m|m]; [discriminate Hm2d| |lia].
  destruct (e2 <=? emax - prec); eauto.
Qed.

Lemma PyLong_AsDouble_positive z f :
  1 <= z -> PyLong_AsDouble z = Ok f -> exists m e, f = S754_finite false m e.
Proof.
  intros Hz. unfold PyLong_AsDouble.
  destruct z as [|p|p]; try lia. cbn [binary_normalize].
  destruct (binary_round_positive false p) as [-> | (m & e & ->)]; [discriminate|].
  intros H. injection H as <-. eauto.
Qed.

Lemma PyLong_AsDouble_nonneg z f :
  0 <= z -> PyLong_AsDouble z = Ok f -> fge f fzero = true.
Proof.
  intros Hz. unfold PyLong_AsDouble.
  pose proof (binary_normalize_nonneg z 0 Hz) as Hn.
  destruct (binary_normalize prec emax z 0 false); try discriminate;
    intros H; injection H as <-; exact Hn.
Qed.

Lemma fmul_nonneg x m e :
  fge x fzero = true -> fge (fmul x (S754_finite false m e)) fzero = true.
Proof.
  rewrite fge_zero. intros Hx. unfold fmul, SFmul.
  destruct x as [sx|sx| |sx mx ex]; try discriminate Hx;
    try (destruct sx; try discriminate Hx; reflexivity).
  destruct sx; [discriminate Hx|]. cbn [xorb].
  apply binary_round_aux_nonneg. lia.
Qed.

Lemma strtod_nonneg n d : fge (strtod false n d) fzero = true.
Proof.
  unfold strtod. destruct n as [|p|p]; try reflexivity.
  destruct (div_core_spec p d) as (q & e & l & -> & Hq & _).
  apply binary_round_aux_nonneg. exact Hq.
Qed.

Lemma float_round_nonneg x n r :
  fge x fzero = true -> float_round x n = Ok r -> fge r fzero = true.
Proof.
  intros Hx. unfold float_round.
  destruct (isfinite x) eqn:Hfin; cbn [negb];
    [|intros H; injection H as <-; exact Hx].
  destruct (NDIGITS_MAX <? n); [intros H; injection H as <-; exact Hx|].
  rewrite fge_zero in Hx.
  destruct x as [s|s| |s m e]; try discriminate Hfin.
  { destruct (n <? NDIGITS_MIN); intros H; injection H as <-;
      destruct s; reflexivity. }
  destruct s; [discriminate Hx|].
  destruct (n <? NDIGITS_MIN); [intros H; injection H as <-; reflexivity|].
  unfold double_round.
  destruct (0 <=? n).
  - pose proof (strtod_nonneg (scaled_digits m e n) (Z.to_pos (10 ^ n))) as Hs.
    destruct (strtod false (scaled_digits m e n) (Z.to_pos (10 ^ n)));
      try discriminate; intros H; injection H as <-; exact Hs.
  - pose proof (strtod_nonneg (scaled_digits m e n * 10 ^ (- n)) 1) as Hs.
    destruct (strtod false (scaled_digits m e n * 10 ^ (- n)) 1);
      try discriminate; intros H; injection H as <-; exact Hs.
Qed.

Lemma py_round_nonneg a r :
  num_nonneg a -> round2 a = Ok r -> num_nonneg r.
Proof.
  unfold round2. destruct a as [z|f]; cbn [py_round num_nonneg]; intros Ha.
  - intros H. injection H as <-. exact Ha.
  - destruct (float_round f 2) as [r'|] eqn:Hr; run; [|discriminate].
    intros H. injection H as <-. exact (float_round_nonneg _ _ _ Ha Hr).
Qed.

Lemma py_mul_nonneg a m e t :
  num_nonneg a -> py_mul a (NFloat (S754_finite false m e)) = Ok t -> num_nonneg t.
Proof.
  destruct a as [z|f]; cbn [py_mul num_nonneg]; intros Ha.
  - destruct (PyLong_AsDouble z) as [z'|] eqn:Hz; run; [|discriminate].
    intros H. injection H as <-. apply fmul_nonneg.
    exact (PyLong_AsDouble_nonneg _ _ Ha Hz).
  - unfold float_mul. cbn [to_double]. run.
    intros H. injection H as <-. apply fmul_nonneg. exact Ha.
Qed.

Lemma py_add_nonneg a b t :
  num_nonneg a -> num_nonneg b -> py_add a b = Ok t -> num_nonneg t.
Proof.
  destruct a as [x|x], b as [y|y]; cbn [py_add num_nonneg]; intros Ha Hb.
  - intros H. injection H as <-. cbn [num_nonneg]. lia.
  - destruct (PyLong_AsDouble x) as [x'|] eqn:Hx; run; [|discriminate].
    intros H. injection H as <-.
    exact (fadd_nonneg _ _ (PyLong_AsDouble_nonneg _ _ Ha Hx) Hb).
  - unfold float_add. cbn [to_double].
    destruct (PyLong_AsDouble y) as [y'|] eqn:Hy; run; [|discriminate].
    intros H. injection H as <-.
    exact (fadd_nonneg _ _ Ha (PyLong_AsDouble_nonneg _ _ Hb Hy)).
  - unfold float_add. cbn [to_double]. run.
    intros H. injection H as <-. exact (fadd_nonneg _ _ Ha Hb).
Qed.

Lemma sum_plain_nonneg xs : forall f,
  fge f fzero = true -> Forall (fun x => fge x fzero = true) xs ->
  fge (sum_plain f xs) fzero = true.
Proof.
  induction xs as [|x xs IH]; intros f Hf Hxs; cbn [sum_plain]; [exact Hf|].
  inversion Hxs as [|? ? Hx Hxs']; subst.
  apply IH; [apply fadd_nonneg; assumption|assumption].
Qed.

Lemma amounts_nonneg its : forall xs,
  Forall item_checked its -> amounts its = Ok xs ->
  Forall (fun x => fge x fzero = true) xs.
Proof.
  induction its as [|i its IH]; intros xs Hits; cbn [amounts].
  - intros H. injection H as <-. constructor.
  - inversion Hits as [|? ? [Hp Hq] Hits']; subst.
    unfold float_mul. cbn [to_double].
    destruct (PyLong_AsDouble (quantity i)) as [q|] eqn:Hqf; run; [|discriminate].
    destruct (amounts its) as [rest|]; run; [|discriminate].
    intros H. injection H as <-.
    destruct (PyLong_AsDouble_positive _ _ Hq Hqf) as (m & e & ->).
    constructor; [apply fmul_nonneg; exact Hp|apply IH; [exact Hits'|reflexivity]].
Qed.

Lemma tax_rate_positive : exists m e, dec 1 1 = S754_finite false m e.
Proof. vm_compute. eauto. Qed.

(** X14.  With the plain summation loop (Python up to 3.11), an order
    whose prices are all [>= 0] and whose quantities are all [>= 1], as
    the constraints of [OrderItem] ask, never gets a negative amount or a
    NaN: when [create_order] returns, the subtotal, the tax and the total
    of the response are all [>= 0]. *)
Theorem checked_order_amounts_nonnegative (order : Order)
    (d : Database) (r : dict) (w' : world) :
  Forall item_checked (items order) ->
  create_order Plain order (Some d) = (Ok r, w') ->
  exists sub tax total,
    r !! "subtotal" = Some (of_num sub) /\
    r !! "tax" = Some (of_num tax) /\
    r !! "total" = Some (of_num total) /\
    num_nonneg sub /\ num_nonneg tax /\ num_nonneg total.
Proof.
  intros Hv. rewrite create_order_run.
  destruct (order_totals Plain (items order)) as [[[sub tax] total]|e] eqn:Ht;
    [|discriminate].
  intros H. injection H as <- <-. exists sub, tax, total.
  split; [unfold computed; rewrite lookup_insert_ne by discriminate; apply lookup_insert_eq|].
  split; [unfold computed; do 2 (rewrite lookup_insert_ne by discriminate); apply lookup_insert_eq|].
  split; [unfold computed; do 3 (rewrite lookup_insert_ne by discriminate); apply lookup_insert_eq|].
  apply order_totals_ok_inv in Ht as (s & Hs & Htax & Htotal & Hsub).
  assert (Hsn : num_nonneg s).
  { unfold unrounded_subtotal in Hs.
    destruct (amounts (items order)) as [xs|] eqn:Hxs; run; [|discriminate].
    injection Hs as <-.
    pose proof (amounts_nonneg _ _ Hv Hxs) as Hnn.
    destruct xs as [|x xs]; cbn [py_sum num_nonneg float_loop]; [lia|].
    inversion Hnn as [|? ? Hx Hxs']; subst.
    apply sum_plain_nonneg; [apply fadd_nonneg; [reflexivity|exact Hx]|exact Hxs']. }
  assert (Htn : num_nonneg tax).
  { destruct tax_rate_positive as (m & e & Hr). unfold tax_rate in Htax.
    rewrite Hr in Htax.
    destruct (py_mul s (NFloat (S754_finite false m e))) as [t|] eqn:Hm; run;
      [|discriminate].
    exact (py_round_nonneg _ _ (py_mul_nonneg _ _ _ _ Hsn Hm) Htax). }
  split; [exact (py_round_nonneg _ _ Hsn Hsub)|]. split; [exact Htn|].
  destruct (py_add s tax) as [u|] eqn:Ha; run; [|discriminate].
  exact (py_round_nonneg _ _ (py_add_nonneg _ _ _ Hsn Htn Ha) Htotal).
Qed.

(** *** Identifiers stay distinct *)

Lemma next_oid_inserted d name data :
  (next_oid d + 1 < 2 ^ 96)%N ->
  next_oid (inserted d name data) = (next_oid d + 1)%N.
Proof. intros H. cbn [inserted next_oid]. apply N.mod_small. exact H. Qed.

Lemma store_ok_inserted d name data :
  store_ok d -> (next_oid d + 1 < 2 ^ 96)%N -> store_ok (inserted d name data).
Proof.
  intros [Hn Hd] Hlt. split; [rewrite next_oid_inserted by exact Hlt; exact Hlt|].
  intros name'. rewrite next_oid_inserted by exact Hlt.
  destruct (Hd name') as [Hnd Hids].
  assert (Hweak : Forall (fun doc => exists o, _id doc = Some o /\ (o < next_oid d + 1)%N)
                    (collection d name')).
  { eapply List.Forall_impl; [|exact Hids].
    intros doc (o & Ho & Hlo). exists o. split; [exact Ho|lia]. }
  destruct (decide (name = name')) as [<-|Hne].
  - rewrite collection_inserted. split.
    + rewrite map_app. cbn [map _id]. apply NoDup_app.
      split; [exact Hnd|]. split; [|apply NoDup_singleton].
      intros x Hx Hx'. apply list_elem_of_singleton in Hx'. subst x.
      apply list_elem_of_In, in_map_iff in Hx as (doc & Hdoc & Hin).
      rewrite List.Forall_forall in Hids.
      destruct (Hids doc Hin) as (o & Ho & Hlo).
      rewrite Ho in Hdoc. injection Hdoc as ->. lia.
    + apply Forall_app. split; [exact Hweak|].
      constructor; [|constructor]. exists (next_oid d). cbn [_id]. split; [reflexivity|lia].
  - rewrite collection_inserted_other by exact Hne. split; [exact Hnd|exact Hweak].
Qed.

Lemma store_ok_fold name (xs : list dict) : forall d,
  store_ok d -> (next_oid d + N.of_nat (length xs) < 2 ^ 96)%N ->
  store_ok (fold_left (fun d' s => inserted d' name s) xs d).
Proof.
  induction xs as [|x xs IH]; intros d Hd Hlt; cbn [fold_left]; [exact Hd|].
  cbn [length] in Hlt. apply IH.
  - apply store_ok_inserted; [exact Hd|lia].
  - rewrite next_oid_inserted by lia. lia.
Qed.

Lemma store_ok_seeded d :
  store_ok d -> (next_oid d + 4 < 2 ^ 96)%N -> store_ok (seeded d).
Proof. intros Hd Hlt. apply store_ok_fold; [exact Hd|exact Hlt]. Qed.

Lemma store_ok_ids_ok d name : store_ok d -> ids_ok (collection d name).
Proof.
  intros [Hn Hd]. destruct (Hd name) as [Hnd Hids]. split; [exact Hnd|].
  eapply List.Forall_impl; [|exact Hids].
  intros doc (o & Ho & Hlo). exists o. split; [exact Ho|lia].
Qed.

Lemma store_ok_empty : store_ok empty_db.
Proof.
  split; [reflexivity|]. intros name. unfold collection, empty_db.
  cbn [collections]. rewrite lookup_empty. cbn [default map].
  split; constructor.
Qed.

(** X15.  The handlers keep the identifiers of the store distinct.  On a
    store whose identifiers are below the next one and pairwise distinct
    within each collection, with room for four more, [POST /seed] and
    [POST /orders], on any body, leave a store with the same property; so
    the products always carry distinct 12-byte identifiers, before and
    after.  The empty store has the property. *)
Theorem handlers_keep_ids_distinct (v : sum_loop) (body : OrderBody)
    (d : Database) :
  store_ok d -> (next_oid d + 4 < 2 ^ 96)%N ->
  ids_ok (collection d "product") /\
  (exists d', (seed_products (Some d)).2 = Some d' /\
              store_ok d' /\ ids_ok (collection d' "product")) /\
  (exists d', (post_orders v body (Some d)).2 = Some d' /\
              store_ok d' /\ ids_ok (collection d' "product")).
Proof.
  intros Hd Hlt. split; [apply store_ok_ids_ok; exact Hd|]. split.
  - destruct (collection d "product") as [|doc docs] eqn:Hc.
    + rewrite (seed_products_empty d Hc). exists (seeded d).
      pose proof (store_ok_seeded d Hd Hlt) as Hs.
      split; [reflexivity|]. split; [exact Hs|apply store_ok_ids_ok; exact Hs].
    + assert (Hne : collection d "product" <> []) by (rewrite Hc; discriminate).
      rewrite (seed_products_nonempty d Hne). exists d.
      split; [reflexivity|]. split; [exact Hd|apply store_ok_ids_ok; exact Hd].
  - unfold post_orders. destruct (validate_order body) as [o|e]; run.
    + rewrite create_order_run.
      destruct (order_totals v (items o)) as [[[sub tax] total]|e]; cbn [snd].
      * assert (Hs : store_ok (inserted d "order"
                        (update (model_dump o) (computed sub tax total))))
          by (apply store_ok_inserted; [exact Hd|lia]).
        eexists. split; [reflexivity|].
        split; [exact Hs|apply store_ok_ids_ok; exact Hs].
      * exists d. split; [reflexivity|].
        split; [exact Hd|apply store_ok_ids_ok; exact Hd].
    + exists d. split; [reflexivity|].
      split; [exact Hd|apply store_ok_ids_ok; exact Hd].
Qed.

(** *** Further instances *)

Lemma create_order_defined v order d :
  Forall item_ok (items order) ->
  exists r w', create_order v order (Some d) = (Ok r, w').
Proof.
  intros Hits.
  destruct (order_totals_defined v (items order) Hits)
    as (s & sub & tax & total & _ & _ & _ & _ & Ht).
  rewrite create_order_run, Ht. eauto.
Qed.


(** X5 at the empty string, at a string of 24 letters z, and at 24
    hexadecimal digits with capitals. *)
Lemma get_product_400_witness :
  get_product "" (Some (seeded empty_db)) =
    (Raise (HTTPException 400 "Invalid product id"), Some (seeded empty_db)) /\
  get_product "zzzzzzzzzzzzzzzzzzzzzzzz" (Some (seeded empty_db)) =
    (Raise (HTTPException 400 "Invalid product id"), Some (seeded empty_db)) /\
  (get_product "0000000000000000000000AB" (Some empty_db) =
     (Raise (HTTPException 404 "Product not found"), Some empty_db) \/
   exists doc, In doc (collection empty_db "product") /\
     get_product "0000000000000000000000AB" (Some empty_db) =
       (Ok (serialize_doc doc), Some empty_db)).
Proof.
  split; [apply (proj1 (get_product_400 (seeded empty_db) ""));
          left; cbn; discriminate|].
  split; [apply (proj1 (get_product_400 (seeded empty_db) "zzzzzzzzzzzzzzzzzzzzzzzz"));
          right; reflexivity|].
  apply (proj2 (get_product_400 empty_db "0000000000000000000000AB")).
  split; reflexivity.
Defined.

(** X4 at a body whose second item has quantity 0. *)
Lemma one_bad_item_rejects_order_witness :
  in_items zero_quantity_body =
    Some [item_body (dec 1999 2) 2; item_body (dec 1250 2) 0] /\
  Exists item_rejected [item_body (dec 1999 2) 2; item_body (dec 1250 2) 0] /\
  post_orders Plain zero_quantity_body (Some empty_db) =
    (Raise RequestValidationError, Some empty_db) /\
  failure_status (post_orders Plain zero_quantity_body (Some empty_db)).1 = Some 422.
Proof.
  assert (Hex : Exists item_rejected
                  [item_body (dec 1999 2) 2; item_body (dec 1250 2) 0]).
  { apply Exists_cons_tl, Exists_cons_hd. do 5 right. exists 0.
    split; [reflexivity|lia]. }
  split; [reflexivity|]. split; [exact Hex|].
  exact (one_bad_item_rejects_order Plain zero_quantity_body _ (Some empty_db)
           eq_refl Hex).
Defined.

(** X7 at the seeded catalogue, listed by the category "Home". *)
Lemma listed_product_can_be_fetched_witness :
  ids_ok (collection (seeded empty_db) "product") /\
  exists rs,
    list_products (Some "Home") (Some (seeded empty_db)) =
      (Ok rs, Some (seeded empty_db)) /\
    Forall (fun r =>
              exists s, r !! "id" = Some (VStr s) /\
                        String.length s = 24%nat /\
                        get_product s (Some (seeded empty_db)) =
                          (Ok r, Some (seeded empty_db))) rs.
Proof.
  assert (H : ids_ok (collection (seeded empty_db) "product")).
  { apply store_ok_ids_ok, store_ok_seeded; [exact store_ok_empty|reflexivity]. }
  split; [exact H|].
  exact (listed_product_can_be_fetched (seeded empty_db) (Some "Home") H).
Defined.

(** X10 at the order of the worked example, on the empty store. *)
Lemma create_order_stores_request_witness :
  exists r w',
    create_order Plain order_a (Some empty_db) = (Ok r, w') /\
    exists doc,
      stored w' "order" = Some (collection empty_db "order" ++ [doc]) /\
      _id doc = Some (next_oid empty_db) /\
      r !! "id" = Some (VStr (str_oid (next_oid empty_db))) /\
      fields doc !! "items" = Some (VList (map dump_item (items order_a))) /\
      fields doc !! "shipping" = Some (dump_shipping (shipping order_a)) /\
      dom r = ({[ "id"; "subtotal"; "tax"; "total"; "status" ]} : gset string).
Proof.
  destruct (create_order_defined Plain order_a empty_db two_items_ok)
    as (r & w' & Hrun).
  exists r, w'. split; [exact Hrun|].
  exact (create_order_stores_request Plain order_a empty_db r w' Hrun).
Defined.

(** X11 at an order with a quantity of [2^1024]. *)
Lemma huge_quantity_overflows_witness :
  Exists (fun i => 2 ^ 1024 <= Z.abs (quantity i)) (items huge_order) /\
  create_order Compensated huge_order (Some empty_db) =
    (Raise (OverflowError "int too large to convert to float"), Some empty_db) /\
  failure_status (create_order Compensated huge_order (Some empty_db)).1 = Some 500.
Proof.
  assert (Hex : Exists (fun i => 2 ^ 1024 <= Z.abs (quantity i)) (items huge_order)).
  { apply Exists_cons_tl, Exists_cons_hd. cbn [item quantity]. lia. }
  split; [exact Hex|].
  exact (huge_quantity_overflows Compensated huge_order empty_db Hex).
Defined.


Lemma two_items_checked : Forall item_checked two_items.
Proof. repeat constructor; cbn; lia. Qed.

(** X14 at the order of the worked example. *)
Lemma checked_order_amounts_nonnegative_witness :
  Forall item_checked (items order_a) /\
  exists r w',
    create_order Plain order_a (Some empty_db) = (Ok r, w') /\
    exists sub tax total,
      r !! "subtotal" = Some (of_num sub) /\
      r !! "tax" = Some (of_num tax) /\
      r !! "total" = Some (of_num total) /\
      num_nonneg sub /\ num_nonneg tax /\ num_nonneg total.
Proof.
  destruct (create_order_defined Plain order_a empty_db two_items_ok)
    as (r & w' & Hrun).
  split; [exact two_items_checked|]. exists r, w'. split; [exact Hrun|].
  exact (checked_order_amounts_nonnegative order_a empty_db r w'
           two_items_checked Hrun).
Defined.

(** X15 at the empty store and the body of the worked example. *)
Lemma handlers_keep_ids_distinct_witness :
  store_ok empty_db /\ (next_oid empty_db + 4 < 2 ^ 96)%N /\
  ids_ok (collection empty_db "product") /\
  (exists d', (seed_products (Some empty_db)).2 = Some d' /\
              store_ok d' /\ ids_ok (collection d' "product")) /\
  (exists d', (post_orders Plain body_a (Some empty_db)).2 = Some d' /\
              store_ok d' /\ ids_ok (collection d' "product")).
Proof.
  split; [exact store_ok_empty|]. split; [reflexivity|].
  exact (handlers_keep_ids_distinct Plain body_a empty_db store_ok_empty eq_refl).
Defined.
